(** * elghaly-vr: colour sampler, surface classifier, colorizer and camera framer

    A shallow embedding of the React component [MobileColorPicker] and of
    the three.js scene code it drives, in the versions kept in the
    repository:

    - [Page]    : [src/app/page.tsx] (first component in the file);
    - [Part000] : [src/unnamed/part_000] (second component, the one with the
                  memoised [wallMaterial]);
    - [Part001] : [src/unnamed/part_001] (the 5x5 averaging sampler).

    JavaScript numbers are modelled as exact rationals ([Q]); a division by
    zero, whose JavaScript result is an infinity or NaN, is made explicit as
    [None].  Pixel data are bytes.  Objects that the code mutates through
    references (meshes, materials) live in explicit stores and are named by
    their index. *)

From Stdlib Require Import ZArith QArith Qround Lqa String Ascii List Lia.
From Stdlib.Strings Require Import Byte.
From stdpp Require Import base option list.
Import ListNotations.

Local Open Scope Z_scope.

(** ** JavaScript primitives *)

Module JS.

(** [ToInt32] of ECMAScript: the operands of the bit operators wrap to
    signed 32 bits. *)
Definition ToInt32 (z : Z) : Z := (z + 2 ^ 31) mod 2 ^ 32 - 2 ^ 31.

(** [a << n] *)
Definition shl (a n : Z) : Z := ToInt32 (Z.shiftl (ToInt32 a) (Z.land n 31)).

(** [a / b] on numbers; [None] stands for the non-finite results. *)
Definition div (a b : Q) : option Q :=
  if Qeq_bool b 0 then None else Some (a / b)%Q.

(** [Math.round]: nearest integer, halves go up. *)
Definition Math_round (q : Q) : Z := Qfloor (q + (1 # 2))%Q.

(** Conversion of a finite number to a Web IDL [long]: the fractional
    part is dropped (rounding toward zero). *)
Definition IntegerPart (q : Q) : Z := Z.quot (Qnum q) (Zpos (Qden q)).

Definition hexDigit (d : Z) : ascii :=
  nth (Z.to_nat d) (list_ascii_of_string "0123456789abcdef") "0"%char.

Fixpoint toRadix16 (fuel : nat) (n : Z) (acc : string) : string :=
  match fuel with
  | O => acc
  | S fuel' =>
      let acc' := String (hexDigit (n mod 16)) acc in
      if n / 16 =? 0 then acc' else toRadix16 fuel' (n / 16) acc'
  end.

(** [n.toString(16)] for a non-negative integer [n]. *)
Definition toString16 (n : Z) : string :=
  toRadix16 (S (Z.to_nat (Z.log2 n))) n EmptyString.

(** [s.slice(1)] *)
Definition slice1 (s : string) : string :=
  match s with
  | EmptyString => EmptyString
  | String _ rest => rest
  end.

Definition lower_ascii (c : ascii) : ascii :=
  let n := nat_of_ascii c in
  if ((65 <=? n) && (n <=? 90))%nat then ascii_of_nat (n + 32) else c.

(** [s.toLowerCase()] on the ASCII letters. *)
Fixpoint toLowerCase (s : string) : string :=
  match s with
  | EmptyString => EmptyString
  | String c rest => String (lower_ascii c) (toLowerCase rest)
  end.

(** [s.includes(sub)] *)
Fixpoint includes (s sub : string) : bool :=
  String.prefix sub s
  || match s with
     | EmptyString => false
     | String _ rest => includes rest sub
     end.

(** [Math.floor] *)
Definition Math_floor (q : Q) : Z := Qfloor q.

End JS.

(** ** The browser objects the sampler reads *)

Module DOM.

Record DOMRect := { left : Q; top : Q; width : Q; height : Q }.

Record Pixel := { red : byte; green : byte; blue : byte; alpha : byte }.

Definition transparentBlack : Pixel :=
  {| red := x00; green := x00; blue := x00; alpha := x00 |}.

Record HTMLVideoElement := {
  readyState : Z;
  videoWidth : Z;
  videoHeight : Z;
  getBoundingClientRect : DOMRect;
  decodedFrame : Z -> Z -> Pixel
}.

(** The bitmap of the hidden canvas. *)
Record Bitmap := {
  bitmapWidth : Z;
  bitmapHeight : Z;
  bitmapPixel : Z -> Z -> Pixel
}.

(** [canvas.width = video.videoWidth; canvas.height = video.videoHeight;
    ctx.drawImage(video, 0, 0, canvas.width, canvas.height)] *)
Definition drawImage (video : HTMLVideoElement) : Bitmap :=
  {| bitmapWidth := videoWidth video;
     bitmapHeight := videoHeight video;
     bitmapPixel := decodedFrame video |}.

Definition inBounds (bm : Bitmap) (px py : Z) : bool :=
  (0 <=? px) && (px <? bitmapWidth bm) && (0 <=? py) && (py <? bitmapHeight bm).

(** A pixel of the source rectangle that lies outside the bitmap is
    transparent black. *)
Definition pixelAt (bm : Bitmap) (px py : Z) : Pixel :=
  if inBounds bm px py then bitmapPixel bm px py else transparentBlack.

Definition pixelBytes (p : Pixel) : list byte :=
  [red p; green p; blue p; alpha p].

Definition windowCoords (x0 y0 sw sh : Z) : list (Z * Z) :=
  j ← seq 0 (Z.to_nat sh);
  i ← seq 0 (Z.to_nat sw);
  [(x0 + Z.of_nat i, y0 + Z.of_nat j)].

(** [ctx.getImageData(sx, sy, sw, sh).data]: the arguments are converted
    to [long]; the result has [4 * sw * sh] bytes, row by row. *)
Definition getImageData (bm : Bitmap) (sx sy : Q) (sw sh : Z) : list byte :=
  '(px, py) ← windowCoords (JS.IntegerPart sx) (JS.IntegerPart sy) sw sh;
  pixelBytes (pixelAt bm px py).

Record Touch := { clientX : Q; clientY : Q }.

(** The argument [e] of the handler: [e.touches] is defined for a touch
    event only. *)
Inductive PointerInput :=
| TouchEvent (touches : list Touch)
| MouseEvent (mouseX mouseY : Q).

Record Webcam := { video : option HTMLVideoElement }.

(** [getContext] tells whether [canvas.getContext("2d", ...)] is
    non-null. *)
Record HTMLCanvasElement := { getContext : bool }.

Record Refs := {
  webcamRef : option Webcam;
  canvasRef : option HTMLCanvasElement
}.

End DOM.

Definition byteVal (b : byte) : Z := Z.of_N (Byte.to_N b).

(** ** The three.js objects the scene code reads and mutates *)

Module THREE.

Record Vector3 := { x : Q; y : Q; z : Q }.

Record Box3 := { min : Vector3; max : Vector3 }.

Definition Qlt_bool (a b : Q) : bool := negb (Qle_bool b a).

Definition isEmpty (box : Box3) : bool :=
  Qlt_bool (x (max box)) (x (min box))
  || Qlt_bool (y (max box)) (y (min box))
  || Qlt_bool (z (max box)) (z (min box)).

(** [box.getCenter(center)] *)
Definition getCenter (box : Box3) : Vector3 :=
  if isEmpty box then {| x := 0; y := 0; z := 0 |}
  else {| x := (x (min box) + x (max box)) * 0.5;
          y := (y (min box) + y (max box)) * 0.5;
          z := (z (min box) + z (max box)) * 0.5 |}%Q.

Record Color := { r : Q; g : Q; b : Q }.

Definition white : Color := {| r := 1; g := 1; b := 1 |}.

Definition hexValue (c : ascii) : option Z :=
  let n := Z.of_nat (nat_of_ascii c) in
  if (48 <=? n) && (n <=? 57) then Some (n - 48)
  else if (97 <=? n) && (n <=? 102) then Some (n - 87)
  else if (65 <=? n) && (n <=? 70) then Some (n - 55)
  else None.

(** [parseInt(digits, 16)] on a string of hexadecimal digits. *)
Fixpoint parseHex (digits : string) (acc : Z) : option Z :=
  match digits with
  | EmptyString => Some acc
  | String c rest => d ← hexValue c; parseHex rest (16 * acc + d)
  end.

(** [color.setHex(hex)] *)
Definition setHex (hex : Z) : Color :=
  {| r := inject_Z (Z.land (Z.shiftr hex 16) 255) / 255;
     g := inject_Z (Z.land (Z.shiftr hex 8) 255) / 255;
     b := inject_Z (Z.land hex 255) / 255 |}%Q.

(** [color.set(style)] for a style string.  Only the notation [#rrggbb],
    the one the sampler writes, is modelled; on any other string the
    colour is left as it is.  The components are stored as parsed, in the
    display space of the string; the conversion to linear light is the
    separate method [convertSRGBToLinear]. *)
Definition set (style : string) (c : Color) : Color :=
  match style with
  | String "#"%char digits =>
      if (String.length digits =? 6)%nat
      then match parseHex digits 0 with
           | Some hex => setHex hex
           | None => c
           end
      else c
  | _ => c
  end.

(** [new THREE.Color(style)] *)
Definition newColor (style : string) : Color := set style white.

Section Transfer.
(** [Math.pow] is not a rational function: it is a parameter. *)
Variable pow : Q -> Q -> Q.

Definition SRGBToLinear (c : Q) : Q :=
  if Qlt_bool c 0.04045
  then (c * 0.0773993808)%Q
  else pow (c * 0.9478672986 + 0.0521327014)%Q 2.4%Q.

(** [color.convertSRGBToLinear()] *)
Definition convertSRGBToLinear (c : Color) : Color :=
  {| r := SRGBToLinear (r c); g := SRGBToLinear (g c); b := SRGBToLinear (b c) |}.
End Transfer.

Record MeshStandardMaterial := {
  materialName : string;
  map : option nat;
  roughness : Q;
  metalness : Q;
  envMapIntensity : Q;
  color : Color;
  needsUpdate : bool
}.

Record Mesh := {
  name : string;
  position : Vector3;
  scale : Vector3;
  material : nat
}.

(** A node of the scene graph; [obj instanceof THREE.Mesh] holds of the
    first kind only. *)
Inductive Object3D :=
| IsMesh (mesh : Mesh)
| NotMesh (nodeName : string).

(** The loaded model: its nodes in the order [scene.traverse] visits
    them, and the box [new THREE.Box3().setFromObject(scene)] computes
    from its geometry. *)
Record Scene := { nodes : list Object3D; setFromObject : Box3 }.

(** The scene that [useGLTF] returns once the model is loaded, and the
    store of material instances: a material is named by its index, and a
    new instance takes the next free index. *)
Record World := { scene : Scene; materials : list MeshStandardMaterial }.

(** The viewer: [camera.position] and, when the orbit controls are
    registered, [controls.target]. *)
Record Viewer := { cameraPosition : Vector3; controlsTarget : option Vector3 }.

End THREE.

(** ** React hooks *)

Module React.

(** [useEffect(effect, deps)]: the effect runs after the first render
    ([prev = None]) and after a render whose dependencies differ from
    those of the previous one. *)
Definition useEffect {D S : Type} `{EqDecision D}
    (effect : S -> S) (prev : option D) (deps : D) (s : S) : S :=
  if decide (prev = Some deps) then s else effect s.

(** The dependencies [[scene, camera, controls]] of the camera effect,
    compared by identity: each object is named by a number, and
    [controls] is null until the orbit controls are registered. *)
Definition CameraDeps : Type := nat * nat * option nat.

End React.

(** [scene.traverse(callback)]: the callback sees every node once, in
    order; it may replace fields of the node it is given (the node at
    index [i] of the scene) and update the state [St] it closes over. *)
Fixpoint traverse {St : Type}
    (callback : nat -> THREE.Object3D -> St -> THREE.Object3D * St)
    (i : nat) (objs : list THREE.Object3D) (s : St) : list THREE.Object3D * St :=
  match objs with
  | [] => ([], s)
  | obj :: rest =>
      let '(obj', s') := callback i obj s in
      let '(rest', s'') := traverse callback (S i) rest s' in
      (obj' :: rest', s'')
  end.

Definition setMaterial (ref : nat) (m : THREE.Mesh) : THREE.Mesh :=
  {| THREE.name := THREE.name m;
     THREE.position := THREE.position m;
     THREE.scale := THREE.scale m;
     THREE.material := ref |}.

Definition setColor (f : THREE.Color -> THREE.Color)
    (mat : THREE.MeshStandardMaterial) : THREE.MeshStandardMaterial :=
  {| THREE.materialName := THREE.materialName mat;
     THREE.map := THREE.map mat;
     THREE.roughness := THREE.roughness mat;
     THREE.metalness := THREE.metalness mat;
     THREE.envMapIntensity := THREE.envMapIntensity mat;
     THREE.color := f (THREE.color mat);
     THREE.needsUpdate := THREE.needsUpdate mat |}.

Definition setNodes (objs : list THREE.Object3D) (sc : THREE.Scene) : THREE.Scene :=
  {| THREE.nodes := objs; THREE.setFromObject := THREE.setFromObject sc |}.

(** [walls.forEach((mesh) => update(mesh.material))]: [walls] holds the
    meshes by reference, here by their index in the scene. *)
Definition forEachWall (update : THREE.MeshStandardMaterial -> THREE.MeshStandardMaterial)
    (walls : list nat) (objs : list THREE.Object3D)
    (mats : list THREE.MeshStandardMaterial) : list THREE.MeshStandardMaterial :=
  foldl (fun mats i =>
           match objs !! i with
           | Some (THREE.IsMesh mesh) => alter update (THREE.material mesh) mats
           | _ => mats
           end) mats walls.

(** The mesh at index [i] of the scene, and the materials that the
    meshes of [walls] refer to. *)
Definition meshAt (objs : list THREE.Object3D) (i : nat) : option THREE.Mesh :=
  match objs !! i with
  | Some (THREE.IsMesh mesh) => Some mesh
  | _ => None
  end.

Definition wallRefs (walls : list nat) (objs : list THREE.Object3D) : list nat :=
  omap (fun i => THREE.material <$> meshAt objs i) walls.

Definition sameVector (a b : THREE.Vector3) : Prop :=
  (THREE.x a == THREE.x b /\ THREE.y a == THREE.y b /\ THREE.z a == THREE.z b)%Q.

(** Every mesh of the scene has a material of the store. *)
Definition wellFormed (w : THREE.World) : Prop :=
  forall i mesh, meshAt (THREE.nodes (THREE.scene w)) i = Some mesh ->
                 (THREE.material mesh < length (THREE.materials w))%nat.

(** ** [src/app/page.tsx] *)

Module Page.
Import DOM.

(** *** [CameraManager] *)

(** The body of the effect. *)
Definition positionCamera (scene : option THREE.Scene) (v : THREE.Viewer) : THREE.Viewer :=
  match scene with
  | None => v
  | Some sc =>
      let center := THREE.getCenter (THREE.setFromObject sc) in
      {| THREE.cameraPosition :=
           {| THREE.x := THREE.x center; THREE.y := 1.6; THREE.z := THREE.z center |};
         THREE.controlsTarget :=
           match THREE.controlsTarget v with
           | Some _ =>
               Some {| THREE.x := THREE.x center; THREE.y := 1.6;
                       THREE.z := (THREE.z center - 0.1)%Q |}
           | None => None
           end |}
  end.

(** The component: the effect with its dependency list. *)
Definition CameraManager (prev : option React.CameraDeps) (deps : React.CameraDeps)
    (scene : option THREE.Scene) (v : THREE.Viewer) : THREE.Viewer :=
  React.useEffect (positionCamera scene) prev deps v.

(** *** [Scene] *)

Definition isFloor (minY : Q) (obj : THREE.Mesh) : bool :=
  let name := JS.toLowerCase (THREE.name obj) in
  JS.includes name "floor"
  || Qle_bool (THREE.y (THREE.position obj)) (minY + 0.05)%Q.

Definition isProp (obj : THREE.Mesh) : bool :=
  let name := JS.toLowerCase (THREE.name obj) in
  JS.includes name "sofa"
  || JS.includes name "couch"
  || JS.includes name "plant"
  || JS.includes name "lamp".

(** [!isFloor && !isProp] *)
Definition paintable (minY : Q) (obj : THREE.Mesh) : bool :=
  negb (isFloor minY obj) && negb (isProp obj).

(** [oldMat.clone()] with its name and texture map replaced. *)
Definition newMat (oldMat : THREE.MeshStandardMaterial) : THREE.MeshStandardMaterial :=
  {| THREE.materialName := "veneer_final";
     THREE.map := None;
     THREE.roughness := THREE.roughness oldMat;
     THREE.metalness := THREE.metalness oldMat;
     THREE.envMapIntensity := THREE.envMapIntensity oldMat;
     THREE.color := THREE.color oldMat;
     THREE.needsUpdate := THREE.needsUpdate oldMat |}.

(** The callback of [scene.traverse]; the state is the material store
    and the [list] being filled.  A mesh always has a material, so the
    last branch is not taken on a well-formed scene. *)
Definition visit (minY : Q) (i : nat) (obj : THREE.Object3D)
    (st : list THREE.MeshStandardMaterial * list nat)
    : THREE.Object3D * (list THREE.MeshStandardMaterial * list nat) :=
  let '(mats, list) := st in
  match obj with
  | THREE.IsMesh mesh =>
      if paintable minY mesh then
        match mats !! THREE.material mesh with
        | Some oldMat =>
            (THREE.IsMesh (setMaterial (length mats) mesh),
             (mats ++ [newMat oldMat], list ++ [i]))
        | None => (obj, st)
        end
      else (obj, st)
  | THREE.NotMesh _ => (obj, st)
  end.

(** The [useMemo] that scans the room once. *)
Definition walls (w : THREE.World) : THREE.World * list nat :=
  let sc := THREE.scene w in
  let minY := THREE.y (THREE.min (THREE.setFromObject sc)) in
  let '(objs, (mats, list)) :=
    traverse (visit minY) 0 (THREE.nodes sc) (THREE.materials w, []) in
  ({| THREE.scene := setNodes objs sc; THREE.materials := mats |}, list).

(** The effect that updates the colour. *)
Definition applyWallColor (walls : list nat) (wallColor : string)
    (w : THREE.World) : THREE.World :=
  {| THREE.scene := THREE.scene w;
     THREE.materials :=
       forEachWall (setColor (THREE.set wallColor)) walls
         (THREE.nodes (THREE.scene w)) (THREE.materials w) |}.

(** The first render of [<Scene wallColor={...} />]: the scan, then the
    colour effect. *)
Definition Scene (wallColor : string) (w : THREE.World) : THREE.World * list nat :=
  let '(w1, list) := walls w in
  (applyWallColor list wallColor w1, list).

(** *** [MobileColorPicker] *)

Inductive Mode := camera | vr.

Record State := { color : string; mode : Mode; isCaptured : bool }.

Definition initialState : State :=
  {| color := "#ffffff"; mode := camera; isCaptured := false |}.

Definition setMode (m : Mode) (s : State) : State :=
  {| color := color s; mode := m; isCaptured := isCaptured s |}.

(** What a call of the handler does: it returns, leaving the state [s],
    or it is aborted by a [TypeError]. *)
Inductive Outcome := Returned (s : State) | Threw.

(** [e.touches ? e.touches[0].clientX : e.clientX], same for Y; reading
    [clientX] of a missing first touch throws. *)
Definition clientPoint (e : PointerInput) : option (Q * Q) :=
  match e with
  | TouchEvent [] => None
  | TouchEvent (t :: _) => Some (clientX t, clientY t)
  | MouseEvent mx my => Some (mx, my)
  end.

Definition hexOfPixel (p0 p1 p2 : Z) : string :=
  String "#"%char
    (JS.slice1 (JS.toString16 (JS.shl 1 24 + JS.shl p0 16 + JS.shl p1 8 + p2))).

Definition pickColor (refs : Refs) (e : PointerInput) (s : State) : Outcome :=
  match webcamRef refs, canvasRef refs with
  | Some webcam, Some canvas =>
      match video webcam with
      | None => Returned s
      | Some video =>
          if negb (readyState video =? 4) then Returned s else
          let rect := getBoundingClientRect video in
          match clientPoint e with
          | None => Threw
          | Some (cX, cY) =>
              let x := Qmult (cX - left rect) <$> JS.div (inject_Z (videoWidth video)) (width rect) in
              let y := Qmult (cY - top rect) <$> JS.div (inject_Z (videoHeight video)) (height rect) in
              if negb (getContext canvas) then Returned s else
              let bitmap := drawImage video in
              match x, y with
              | Some x, Some y =>
                  let pixel := getImageData bitmap x y 1 1 in
                  let hex := hexOfPixel (byteVal (nth 0 pixel x00))
                                        (byteVal (nth 1 pixel x00))
                                        (byteVal (nth 2 pixel x00)) in
                  Returned {| color := hex; mode := mode s; isCaptured := true |}
              | _, _ => Threw (* getImageData rejects a non-finite argument *)
              end
          end
      end
  | _, _ => Returned s
  end.

(** The controls of the page and their handlers. *)
Inductive Action :=
| Tap (refs : Refs) (e : PointerInput)  (* onClick / onTouchStart of the webcam *)
| ClickViewVR                           (* the VIEW VR button *)
| ClickBack.                            (* the BACK button *)

(** Which controls the component renders in state [s]. *)
Definition rendered (s : State) (a : Action) : bool :=
  match mode s, a with
  | vr, ClickBack => true
  | camera, Tap _ _ => true
  | camera, ClickViewVR => isCaptured s
  | _, _ => false
  end.

Definition handle (s : State) (a : Action) : State :=
  match a with
  | Tap refs e =>
      match pickColor refs e s with
      | Returned s' => s'
      | Threw => s
      end
  | ClickViewVR => setMode vr s
  | ClickBack => setMode camera s
  end.

(** A run of the page: each action must be on a rendered control. *)
Fixpoint run (s : State) (acts : list Action) : option State :=
  match acts with
  | [] => Some s
  | a :: rest => if rendered s a then run (handle s a) rest else None
  end.


End Page.

(** ** [src/unnamed/part_000], the component with the shared wall paint *)

Module Part000.

(** *** [CameraManager] *)

Definition positionCamera (scene : option THREE.Scene) (v : THREE.Viewer) : THREE.Viewer :=
  match scene with
  | None => v
  | Some sc =>
      let center := THREE.getCenter (THREE.setFromObject sc) in
      {| THREE.cameraPosition :=
           {| THREE.x := THREE.x center; THREE.y := 1.6;
              THREE.z := (THREE.z center + 1)%Q |};
         THREE.controlsTarget :=
           match THREE.controlsTarget v with
           | Some _ =>
               Some {| THREE.x := THREE.x center; THREE.y := 1.4;
                       THREE.z := THREE.z center |}
           | None => None
           end |}
  end.

(** The component: the effect with its dependency list. *)
Definition CameraManager (prev : option React.CameraDeps) (deps : React.CameraDeps)
    (scene : option THREE.Scene) (v : THREE.Viewer) : THREE.Viewer :=
  React.useEffect (positionCamera scene) prev deps v.

(** *** [Scene] *)

(** [new THREE.MeshStandardMaterial({ roughness: 0.85, metalness: 0.0,
    envMapIntensity: 0.5 })]; the other fields take the defaults of the
    class. *)
Definition newWallMaterial : THREE.MeshStandardMaterial :=
  {| THREE.materialName := "";
     THREE.map := None;
     THREE.roughness := 0.85;
     THREE.metalness := 0.0;
     THREE.envMapIntensity := 0.5;
     THREE.color := THREE.white;
     THREE.needsUpdate := false |}.

(** The [useMemo] with no dependency: one instance for the life of the
    component.  It returns the reference [wallMaterial]. *)
Definition wallMaterial (w : THREE.World) : THREE.World * nat :=
  ({| THREE.scene := THREE.scene w;
      THREE.materials := THREE.materials w ++ [newWallMaterial] |},
   length (THREE.materials w)).

Definition isFloor (obj : THREE.Mesh) : bool :=
  let name := JS.toLowerCase (THREE.name obj) in
  JS.includes name "floor" || JS.includes name "ground".

Definition isFurniture (obj : THREE.Mesh) : bool :=
  let name := JS.toLowerCase (THREE.name obj) in
  JS.includes name "sofa"
  || JS.includes name "couch"
  || JS.includes name "plant"
  || JS.includes name "lamp"
  || JS.includes name "shelf"
  || JS.includes name "cushion"
  || JS.includes name "frame".

Definition isCeiling (obj : THREE.Mesh) : bool :=
  let name := JS.toLowerCase (THREE.name obj) in
  JS.includes name "ceiling" || JS.includes name "roof".

Definition paintable (obj : THREE.Mesh) : bool :=
  negb (isFloor obj) && negb (isFurniture obj) && negb (isCeiling obj).

(** The callback of [scene.traverse]; it closes over no mutable state. *)
Definition visit (wallMat : nat) (i : nat) (obj : THREE.Object3D) (st : unit)
    : THREE.Object3D * unit :=
  match obj with
  | THREE.IsMesh mesh =>
      if paintable mesh
      then (THREE.IsMesh (setMaterial wallMat mesh), st)
      else (obj, st)
  | THREE.NotMesh _ => (obj, st)
  end.

(** The effect that hands the wall paint to the paintable meshes. *)
Definition assignWallMaterial (wallMat : nat) (w : THREE.World) : THREE.World :=
  let sc := THREE.scene w in
  {| THREE.scene := setNodes (fst (traverse (visit wallMat) 0 (THREE.nodes sc) tt)) sc;
     THREE.materials := THREE.materials w |}.

Section Transfer.
Variable pow : Q -> Q -> Q.

(** [wallMaterial.color.set(wallColor).convertSRGBToLinear()] *)
Definition applyWallColor (wallMat : nat) (wallColor : string)
    (w : THREE.World) : THREE.World :=
  {| THREE.scene := THREE.scene w;
     THREE.materials :=
       alter (setColor (fun c => THREE.convertSRGBToLinear pow (THREE.set wallColor c)))
             wallMat (THREE.materials w) |}.

(** The first render of [<Scene wallColor={...} />]: the memoised
    material, then the two effects in the order they are declared. *)
Definition Scene (wallColor : string) (w : THREE.World) : THREE.World * nat :=
  let '(w1, wallMat) := wallMaterial w in
  (applyWallColor wallMat wallColor (assignWallMaterial wallMat w1), wallMat).
End Transfer.

(** *** [MobileColorPicker]: the sampler *)

Inductive Mode := camera | vr.

Record State := {
  color : string;
  mode : Mode;
  isCaptured : bool;
  tapPos : Q * Q
}.

(** What a call of the handler does: it returns, or it is aborted by a
    [TypeError]; either way [s] is the state with the updates made so far. *)
Inductive Outcome := Returned (s : State) | Threw (s : State).

Definition setTapPos (p : Q * Q) (s : State) : State :=
  {| color := color s; mode := mode s; isCaptured := isCaptured s; tapPos := p |}.

(** The handler that floors the mapped point before the read. *)
Definition pickColor (refs : DOM.Refs) (e : DOM.PointerInput) (s : State) : Outcome :=
  match DOM.webcamRef refs, DOM.canvasRef refs with
  | Some webcam, Some canvas =>
      match DOM.video webcam with
      | None => Returned s
      | Some video =>
          if negb (DOM.readyState video =? 4) then Returned s else
          let rect := DOM.getBoundingClientRect video in
          match Page.clientPoint e with
          | None => Threw s
          | Some (cX, cY) =>
              let s1 := setTapPos (cX, cY) s in
              if negb (DOM.getContext canvas) then Returned s1 else
              let bitmap := DOM.drawImage video in
              let scaleX := JS.div (inject_Z (DOM.videoWidth video)) (DOM.width rect) in
              let scaleY := JS.div (inject_Z (DOM.videoHeight video)) (DOM.height rect) in
              let x := Qmult (cX - DOM.left rect) <$> scaleX in
              let y := Qmult (cY - DOM.top rect) <$> scaleY in
              match x, y with
              | Some x, Some y =>
                  let pixel := DOM.getImageData bitmap (inject_Z (JS.Math_floor x))
                                 (inject_Z (JS.Math_floor y)) 1 1 in
                  let hex := Page.hexOfPixel (byteVal (nth 0 pixel x00))
                                             (byteVal (nth 1 pixel x00))
                                             (byteVal (nth 2 pixel x00)) in
                  Returned {| color := hex; mode := mode s1;
                              isCaptured := true; tapPos := tapPos s1 |}
              | _, _ => Threw s1 (* getImageData rejects a non-finite argument *)
              end
          end
      end
  | _, _ => Returned s
  end.

End Part000.

(** ** [src/unnamed/part_001], the component with the averaging sampler *)

Module Part001.
Import DOM.

(** *** [CameraManager] *)

Definition positionCamera (scene : option THREE.Scene) (v : THREE.Viewer) : THREE.Viewer :=
  match scene with
  | None => v
  | Some sc =>
      let center := THREE.getCenter (THREE.setFromObject sc) in
      {| THREE.cameraPosition :=
           {| THREE.x := THREE.x center; THREE.y := 1.6;
              THREE.z := (THREE.z center + 0.5)%Q |};
         THREE.controlsTarget :=
           match THREE.controlsTarget v with
           | Some _ =>
               Some {| THREE.x := THREE.x center; THREE.y := 1.4;
                       THREE.z := THREE.z center |}
           | None => None
           end |}
  end.

(** The component: the effect with its dependency list. *)
Definition CameraManager (prev : option React.CameraDeps) (deps : React.CameraDeps)
    (scene : option THREE.Scene) (v : THREE.Viewer) : THREE.Viewer :=
  React.useEffect (positionCamera scene) prev deps v.

(** *** [Scene]: the colour effect *)

Definition setNeedsUpdate (flag : bool)
    (mat : THREE.MeshStandardMaterial) : THREE.MeshStandardMaterial :=
  {| THREE.materialName := THREE.materialName mat;
     THREE.map := THREE.map mat;
     THREE.roughness := THREE.roughness mat;
     THREE.metalness := THREE.metalness mat;
     THREE.envMapIntensity := THREE.envMapIntensity mat;
     THREE.color := THREE.color mat;
     THREE.needsUpdate := flag |}.

Section Transfer.
Variable pow : Q -> Q -> Q.

(** The body of the [forEach]: [mat.color.copy(colorObj);
    mat.color.convertSRGBToLinear(); mat.needsUpdate = true]. *)
Definition recolor (colorObj : THREE.Color)
    (mat : THREE.MeshStandardMaterial) : THREE.MeshStandardMaterial :=
  setNeedsUpdate true
    (setColor (THREE.convertSRGBToLinear pow)
       (setColor (fun _ => colorObj) mat)).

Definition applyWallColor (walls : list nat) (wallColor : string)
    (w : THREE.World) : THREE.World :=
  let colorObj := THREE.newColor wallColor in
  {| THREE.scene := THREE.scene w;
     THREE.materials :=
       forEachWall (recolor colorObj) walls
         (THREE.nodes (THREE.scene w)) (THREE.materials w) |}.
End Transfer.

(** *** [MobileColorPicker]: the sampler *)

Inductive Mode := camera | vr.

Record State := {
  color : string;
  mode : Mode;
  isCaptured : bool;
  tapPos : Q * Q
}.

(** What a call of the handler does: it returns, or it is aborted by a
    [TypeError]; either way [s] is the state with the updates made so far. *)
Inductive Outcome := Returned (s : State) | Threw (s : State).

Definition setTapPos (p : Q * Q) (s : State) : State :=
  {| color := color s; mode := mode s; isCaptured := isCaptured s; tapPos := p |}.

(** The summing loop over the RGBA bytes, four at a time. *)
Fixpoint sumChannels (imgData : list byte) (acc : Z * Z * Z) : Z * Z * Z :=
  match imgData with
  | r0 :: g0 :: b0 :: _ :: rest =>
      let '(r, g, b) := acc in
      sumChannels rest (r + byteVal r0, g + byteVal g0, b + byteVal b0)
  | _ => acc
  end.

(** The average of the 5x5 block at [(x - 2, y - 2)], as a hex string.
    The divisions are by [4] and by [count], which is never zero (the
    block has 100 bytes), so the result is never [None]. *)
Definition averageBlock (bitmap : Bitmap) (x y : Q) : option string :=
  let size := 5 in
  let imgData := getImageData bitmap (x - 2)%Q (y - 2)%Q size size in
  let '(r, g, b) := sumChannels imgData (0, 0, 0) in
  count ← JS.div (inject_Z (Z.of_nat (length imgData))) 4;
  rAvg ← JS.div (inject_Z r) count;
  gAvg ← JS.div (inject_Z g) count;
  bAvg ← JS.div (inject_Z b) count;
  Some (String "#"%char
          (JS.slice1 (JS.toString16
             (JS.shl 1 24
              + JS.shl (JS.Math_round rAvg) 16
              + JS.shl (JS.Math_round gAvg) 8
              + JS.Math_round bAvg)))).

Definition pickColor (refs : Refs) (e : PointerInput) (s : State) : Outcome :=
  match webcamRef refs, canvasRef refs with
  | Some webcam, Some canvas =>
      match video webcam with
      | None => Returned s
      | Some video =>
          if negb (readyState video =? 4) then Returned s else
          let rect := getBoundingClientRect video in
          match Page.clientPoint e with
          | None => Threw s
          | Some (cX, cY) =>
              let x := Qmult (cX - left rect) <$> JS.div (inject_Z (videoWidth video)) (width rect) in
              let y := Qmult (cY - top rect) <$> JS.div (inject_Z (videoHeight video)) (height rect) in
              let s1 := setTapPos (cX, cY) s in
              if negb (getContext canvas) then Returned s1 else
              let bitmap := drawImage video in
              match x, y with
              | Some x, Some y =>
                  match averageBlock bitmap x y with
                  | Some hex =>
                      Returned {| color := hex; mode := mode s1;
                                  isCaptured := true; tapPos := tapPos s1 |}
                  | None => Threw s1
                  end
              | _, _ => Threw s1 (* getImageData rejects a non-finite argument *)
              end
          end
      end
  | _, _ => Returned s
  end.

(** *** [Scene]: the scan *)

Definition isFloor (minY : Q) (obj : THREE.Mesh) : bool :=
  let name := JS.toLowerCase (THREE.name obj) in
  JS.includes name "floor"
  || Qle_bool (THREE.y (THREE.position obj)) (minY + 0.05)%Q.

Definition isProp (obj : THREE.Mesh) : bool :=
  let name := JS.toLowerCase (THREE.name obj) in
  JS.includes name "sofa"
  || JS.includes name "couch"
  || JS.includes name "plant"
  || JS.includes name "lamp".

Definition paintable (minY : Q) (obj : THREE.Mesh) : bool :=
  negb (isFloor minY obj) && negb (isProp obj).

(** [oldMat.clone()] with its name, texture map and finish replaced. *)
Definition newMat (oldMat : THREE.MeshStandardMaterial) : THREE.MeshStandardMaterial :=
  {| THREE.materialName := "veneer_final";
     THREE.map := None;
     THREE.roughness := 0.45;
     THREE.metalness := 0.02;
     THREE.envMapIntensity := THREE.envMapIntensity oldMat;
     THREE.color := THREE.color oldMat;
     THREE.needsUpdate := THREE.needsUpdate oldMat |}.

Definition visit (minY : Q) (i : nat) (obj : THREE.Object3D)
    (st : list THREE.MeshStandardMaterial * list nat)
    : THREE.Object3D * (list THREE.MeshStandardMaterial * list nat) :=
  let '(mats, list) := st in
  match obj with
  | THREE.IsMesh mesh =>
      if paintable minY mesh then
        match mats !! THREE.material mesh with
        | Some oldMat =>
            (THREE.IsMesh (setMaterial (length mats) mesh),
             (mats ++ [newMat oldMat], list ++ [i]))
        | None => (obj, st)
        end
      else (obj, st)
  | THREE.NotMesh _ => (obj, st)
  end.

Definition walls (w : THREE.World) : THREE.World * list nat :=
  let sc := THREE.scene w in
  let minY := THREE.y (THREE.min (THREE.setFromObject sc)) in
  let '(objs, (mats, list)) :=
    traverse (visit minY) 0 (THREE.nodes sc) (THREE.materials w, []) in
  ({| THREE.scene := setNodes objs sc; THREE.materials := mats |}, list).

(** The first render of [<Scene wallColor={...} />]. *)
Definition Scene (pow : Q -> Q -> Q) (wallColor : string) (w : THREE.World)
    : THREE.World * list nat :=
  let '(w1, list) := walls w in
  (applyWallColor pow list wallColor w1, list).

End Part001.

(** ** [src/app/page.tsx], the second component in the file *)

Module Page2.

(** *** [CameraManager] *)

Definition positionCamera (scene : option THREE.Scene) (v : THREE.Viewer) : THREE.Viewer :=
  match scene with
  | None => v
  | Some sc =>
      let center := THREE.getCenter (THREE.setFromObject sc) in
      {| THREE.cameraPosition :=
           {| THREE.x := THREE.x center; THREE.y := 1.6;
              THREE.z := (THREE.z center + 0.5)%Q |};
         THREE.controlsTarget :=
           match THREE.controlsTarget v with
           | Some _ =>
               Some {| THREE.x := THREE.x center; THREE.y := 1.4;
                       THREE.z := THREE.z center |}
           | None => None
           end |}
  end.

Definition CameraManager (prev : option React.CameraDeps) (deps : React.CameraDeps)
    (scene : option THREE.Scene) (v : THREE.Viewer) : THREE.Viewer :=
  React.useEffect (positionCamera scene) prev deps v.

(** *** [Scene] *)

Definition isFloor (obj : THREE.Mesh) : bool :=
  let name := JS.toLowerCase (THREE.name obj) in
  JS.includes name "floor" || JS.includes name "ground".

Definition isFurniture (obj : THREE.Mesh) : bool :=
  let name := JS.toLowerCase (THREE.name obj) in
  JS.includes name "sofa"
  || JS.includes name "couch"
  || JS.includes name "plant"
  || JS.includes name "lamp"
  || JS.includes name "shelf"
  || JS.includes name "cushion"
  || JS.includes name "frame".

Definition isCeiling (obj : THREE.Mesh) : bool :=
  let name := JS.toLowerCase (THREE.name obj) in
  JS.includes name "ceiling" || JS.includes name "roof".

Definition paintable (obj : THREE.Mesh) : bool :=
  negb (isFloor obj) && negb (isFurniture obj) && negb (isCeiling obj).

(** [oldMat.clone()] with its name, texture map and finish replaced. *)
Definition newMat (oldMat : THREE.MeshStandardMaterial) : THREE.MeshStandardMaterial :=
  {| THREE.materialName := "active_veneer";
     THREE.map := None;
     THREE.roughness := 0.45;
     THREE.metalness := 0.02;
     THREE.envMapIntensity := THREE.envMapIntensity oldMat;
     THREE.color := THREE.color oldMat;
     THREE.needsUpdate := THREE.needsUpdate oldMat |}.

Definition visit (i : nat) (obj : THREE.Object3D)
    (st : list THREE.MeshStandardMaterial * list nat)
    : THREE.Object3D * (list THREE.MeshStandardMaterial * list nat) :=
  let '(mats, list) := st in
  match obj with
  | THREE.IsMesh mesh =>
      if paintable mesh then
        match mats !! THREE.material mesh with
        | Some oldMat =>
            (THREE.IsMesh (setMaterial (length mats) mesh),
             (mats ++ [newMat oldMat], list ++ [i]))
        | None => (obj, st)
        end
      else (obj, st)
  | THREE.NotMesh _ => (obj, st)
  end.

(** The [useMemo] that scans the room once. *)
Definition paintableWalls (w : THREE.World) : THREE.World * list nat :=
  let sc := THREE.scene w in
  let '(objs, (mats, list)) :=
    traverse visit 0 (THREE.nodes sc) (THREE.materials w, []) in
  ({| THREE.scene := setNodes objs sc; THREE.materials := mats |}, list).

Section Transfer.
Variable pow : Q -> Q -> Q.

(** [const colorObj = new THREE.Color(wallColor).convertSRGBToLinear()],
    then [color.copy(colorObj)] on every wall. *)
Definition applyWallColor (walls : list nat) (wallColor : string)
    (w : THREE.World) : THREE.World :=
  let colorObj := THREE.convertSRGBToLinear pow (THREE.newColor wallColor) in
  {| THREE.scene := THREE.scene w;
     THREE.materials :=
       forEachWall (setColor (fun _ => colorObj)) walls
         (THREE.nodes (THREE.scene w)) (THREE.materials w) |}.

Definition Scene (wallColor : string) (w : THREE.World) : THREE.World * list nat :=
  let '(w1, list) := paintableWalls w in
  (applyWallColor list wallColor w1, list).
End Transfer.

(** *** [MobileColorPicker]: the sampler *)

Inductive Mode := camera | vr.

Record State := {
  color : string;
  mode : Mode;
  isCaptured : bool;
  tapPos : Q * Q
}.

Inductive Outcome := Returned (s : State) | Threw (s : State).

Definition setTapPos (p : Q * Q) (s : State) : State :=
  {| color := color s; mode := mode s; isCaptured := isCaptured s; tapPos := p |}.

Definition pickColor (refs : DOM.Refs) (e : DOM.PointerInput) (s : State) : Outcome :=
  match DOM.webcamRef refs, DOM.canvasRef refs with
  | Some webcam, Some canvas =>
      match DOM.video webcam with
      | None => Returned s
      | Some video =>
          if negb (DOM.readyState video =? 4) then Returned s else
          let rect := DOM.getBoundingClientRect video in
          match Page.clientPoint e with
          | None => Threw s
          | Some (cX, cY) =>
              let s1 := setTapPos (cX, cY) s in
              if negb (DOM.getContext canvas) then Returned s1 else
              let bitmap := DOM.drawImage video in
              let scaleX := JS.div (inject_Z (DOM.videoWidth video)) (DOM.width rect) in
              let scaleY := JS.div (inject_Z (DOM.videoHeight video)) (DOM.height rect) in
              let x := Qmult (cX - DOM.left rect) <$> scaleX in
              let y := Qmult (cY - DOM.top rect) <$> scaleY in
              match x, y with
              | Some x, Some y =>
                  let pixel := DOM.getImageData bitmap x y 1 1 in
                  let hex := Page.hexOfPixel (byteVal (nth 0 pixel x00))
                                             (byteVal (nth 1 pixel x00))
                                             (byteVal (nth 2 pixel x00)) in
                  Returned {| color := hex; mode := mode s1;
                              isCaptured := true; tapPos := tapPos s1 |}
              | _, _ => Threw s1 (* getImageData rejects a non-finite argument *)
              end
          end
      end
  | _, _ => Returned s
  end.

End Page2.

(** ** [src/unnamed/part_000], the first component in the file *)

Module Part000A.

(** *** [CameraAutoSetup] *)

Definition positionCamera (scene : option THREE.Scene) (v : THREE.Viewer) : THREE.Viewer :=
  match scene with
  | None => v
  | Some sc =>
      let center := THREE.getCenter (THREE.setFromObject sc) in
      {| THREE.cameraPosition :=
           {| THREE.x := THREE.x center; THREE.y := 1.6; THREE.z := THREE.z center |};
         THREE.controlsTarget :=
           match THREE.controlsTarget v with
           | Some _ =>
               Some {| THREE.x := THREE.x center; THREE.y := 1.4;
                       THREE.z := (THREE.z center - 0.1)%Q |}
           | None => None
           end |}
  end.

Definition CameraAutoSetup (prev : option React.CameraDeps) (deps : React.CameraDeps)
    (scene : option THREE.Scene) (v : THREE.Viewer) : THREE.Viewer :=
  React.useEffect (positionCamera scene) prev deps v.

(** *** [Scene] *)

Definition setName (name : string)
    (mat : THREE.MeshStandardMaterial) : THREE.MeshStandardMaterial :=
  {| THREE.materialName := name;
     THREE.map := THREE.map mat;
     THREE.roughness := THREE.roughness mat;
     THREE.metalness := THREE.metalness mat;
     THREE.envMapIntensity := THREE.envMapIntensity mat;
     THREE.color := THREE.color mat;
     THREE.needsUpdate := THREE.needsUpdate mat |}.

Definition setRoughness (value : Q)
    (mat : THREE.MeshStandardMaterial) : THREE.MeshStandardMaterial :=
  {| THREE.materialName := THREE.materialName mat;
     THREE.map := THREE.map mat;
     THREE.roughness := value;
     THREE.metalness := THREE.metalness mat;
     THREE.envMapIntensity := THREE.envMapIntensity mat;
     THREE.color := THREE.color mat;
     THREE.needsUpdate := THREE.needsUpdate mat |}.

(** [applyColor(mesh, hex)]: the material is cloned unless it is already
    the veneer of the mesh, then coloured.  It returns the mesh with its
    material reference and the store.  A mesh always has a material, so the
    last branch is not taken on a well-formed scene. *)
Definition applyColor (mesh : THREE.Mesh) (hex : string)
    (mats : list THREE.MeshStandardMaterial)
    : THREE.Mesh * list THREE.MeshStandardMaterial :=
  match mats !! THREE.material mesh with
  | Some mat =>
      let '(mesh1, mats1) :=
        if negb (String.eqb (THREE.materialName mat) "custom_veneer")
        then (setMaterial (length mats) mesh, mats ++ [setName "custom_veneer" mat])
        else (mesh, mats) in
      (mesh1,
       alter (fun m => setRoughness 0.6 (setColor (THREE.set hex) m))
             (THREE.material mesh1) mats1)
  | None => (mesh, mats)
  end.

(** The test of the effect: a name of a wall, or a tall mesh. *)
Definition isMainWall (obj : THREE.Mesh) : bool :=
  let name := JS.toLowerCase (THREE.name obj) in
  JS.includes name "wall"
  || JS.includes name "structure"
  || THREE.Qlt_bool 1.5 (THREE.y (THREE.scale obj)).

Definition visit (wallColor : string) (i : nat) (obj : THREE.Object3D)
    (mats : list THREE.MeshStandardMaterial)
    : THREE.Object3D * list THREE.MeshStandardMaterial :=
  match obj with
  | THREE.IsMesh mesh =>
      if isMainWall mesh then
        let '(mesh', mats') := applyColor mesh wallColor mats in
        (THREE.IsMesh mesh', mats')
      else (obj, mats)
  | THREE.NotMesh _ => (obj, mats)
  end.

(** The effect, run at every change of [scene] or [wallColor]. *)
Definition colorMainWalls (wallColor : string) (w : THREE.World) : THREE.World :=
  let sc := THREE.scene w in
  let '(objs, mats) := traverse (visit wallColor) 0 (THREE.nodes sc) (THREE.materials w) in
  {| THREE.scene := setNodes objs sc; THREE.materials := mats |}.

(** [onClick] of the group: the colour goes to the mesh under the pointer,
    the node [i]. *)
Definition onClick (i : nat) (wallColor : string) (w : THREE.World) : THREE.World :=
  match meshAt (THREE.nodes (THREE.scene w)) i with
  | Some mesh =>
      let '(mesh', mats') := applyColor mesh wallColor (THREE.materials w) in
      {| THREE.scene := setNodes (<[i := THREE.IsMesh mesh']> (THREE.nodes (THREE.scene w)))
                                 (THREE.scene w);
         THREE.materials := mats' |}
  | None => w
  end.

End Part000A.

(** ** The sampler in the words of the specification

    [imageCoordinate], [sampleColorAt] and [clampedAverage] follow the text
    of the specification, not the code; they are what the code is compared
    with.  The other definitions serve to state what the code computes. *)

Module Spec.
Import DOM.



(** A colour in the notation [#rrggbb]. *)
Definition isHexDigit (c : ascii) : bool :=
  match THREE.hexValue c with Some _ => true | None => false end.

Fixpoint allHexDigits (digits : string) : bool :=
  match digits with
  | EmptyString => true
  | String c rest => isHexDigit c && allHexDigits rest
  end.

Definition wellFormedHex (hex : string) : bool :=
  match hex with
  | String "#"%char digits => (String.length digits =? 6)%nat && allHexDigits digits
  | _ => false
  end.

Definition channelSum (channel : Pixel -> byte) (pixels : list Pixel) : Z :=
  foldr (fun p acc => byteVal (channel p) + acc) 0 pixels.

(** The part of a window that lies inside the bitmap. *)
Definition validCoords (bm : Bitmap) (window : list (Z * Z)) : list (Z * Z) :=
  List.filter (fun c => inBounds bm c.1 c.2) window.

Definition pixelsAt (bm : Bitmap) (coords : list (Z * Z)) : list Pixel :=
  (fun c => bitmapPixel bm c.1 c.2) <$> coords.

(** The 5x5 neighbourhood average centred at [(imageX, imageY)], the
    window clamped to the bitmap: the per-channel mean over the valid
    pixels only, rounded to the nearest integer. *)
Definition clampedAverage (bm : Bitmap) (imageX imageY : Z) : option (Z * Z * Z) :=
  let valid := pixelsAt bm (validCoords bm (windowCoords (imageX - 2) (imageY - 2) 5 5)) in
  count ← JS.div (inject_Z (Z.of_nat (length valid))) 1;
  r ← JS.div (inject_Z (channelSum red valid)) count;
  g ← JS.div (inject_Z (channelSum green valid)) count;
  b ← JS.div (inject_Z (channelSum blue valid)) count;
  Some (JS.Math_round r, JS.Math_round g, JS.Math_round b).

End Spec.

(** ** Example inputs *)

Module Examples.
Import DOM.

(** A frame whose pixel at [(px, py)] has red [px mod 256] and green
    [py mod 256]. *)
Definition gradient (px py : Z) : Pixel :=
  {| red := default x00 (Byte.of_N (Z.to_N (px mod 256)));
     green := default x00 (Byte.of_N (Z.to_N (py mod 256)));
     blue := x00;
     alpha := xff |}.

Definition uniform (px py : Z) : Pixel :=
  {| red := x0a; green := x14; blue := x1e; alpha := xff |}.

(** A 1920x1080 stream shown in a 390x844 rectangle at the origin. *)
Definition phoneVideo (state : Z) (frame : Z -> Z -> Pixel) : HTMLVideoElement :=
  {| readyState := state;
     videoWidth := 1920;
     videoHeight := 1080;
     getBoundingClientRect := {| left := 0; top := 0; width := 390; height := 844 |};
     decodedFrame := frame |}.

Definition texturedMaterial (texture : nat) : THREE.MeshStandardMaterial :=
  {| THREE.materialName := "baked";
     THREE.map := Some texture;
     THREE.roughness := 1;
     THREE.metalness := 0;
     THREE.envMapIntensity := 1;
     THREE.color := THREE.white;
     THREE.needsUpdate := false |}.

Definition mesh (name : string) (height : Q) (material : nat) : THREE.Mesh :=
  {| THREE.name := name;
     THREE.position := {| THREE.x := 0; THREE.y := height; THREE.z := 0 |};
     THREE.scale := {| THREE.x := 1; THREE.y := 1; THREE.z := 1 |};
     THREE.material := material |}.

Definition meshNode (name : string) (height : Q) (material : nat) : THREE.Object3D :=
  THREE.IsMesh (mesh name height material).

Definition box (minY maxY : Q) : THREE.Box3 :=
  {| THREE.min := {| THREE.x := -2; THREE.y := minY; THREE.z := -3 |};
     THREE.max := {| THREE.x := 2; THREE.y := maxY; THREE.z := 3 |} |}.

Definition worldOf (objs : list THREE.Object3D) : THREE.World :=
  {| THREE.scene := {| THREE.nodes := objs; THREE.setFromObject := box 0 3 |};
     THREE.materials := texturedMaterial <$> seq 0 (length objs) |}.

(** The room of the end-to-end scenario, each node with a material of
    its own; the floor lies at the bottom of the box, the ceiling at its
    top. *)
Definition room : THREE.World :=
  worldOf [meshNode "Wall_North" 1.5 0; meshNode "Floor_Main" 0 1;
           meshNode "Sofa_01" 0.4 2; meshNode "Ceiling" 3 3].

(** The same room with every node placed at the origin of the model. *)
Definition roomAtOrigin : THREE.World :=
  worldOf [meshNode "Wall_North" 0 0; meshNode "Floor_Main" 0 1;
           meshNode "Sofa_01" 0 2; meshNode "Ceiling" 0 3].

Definition twoWalls : THREE.World :=
  worldOf [meshNode "Wall_North" 1.5 0; meshNode "Wall_South" 1.5 1].

(** A stand-in for [Math.pow] where its values do not matter. *)
Definition noPow (base exponent : Q) : Q := 0.

(** A room 4 wide, 3 high and 6 deep, centred on the vertical axis. *)
Definition roomBox : THREE.Box3 :=
  {| THREE.min := {| THREE.x := -2; THREE.y := 0; THREE.z := -3 |};
     THREE.max := {| THREE.x := 2; THREE.y := 3; THREE.z := 3 |} |}.

Definition emptyRoom : THREE.Scene :=
  {| THREE.nodes := []; THREE.setFromObject := roomBox |}.

Definition defaultViewer : THREE.Viewer :=
  {| THREE.cameraPosition := {| THREE.x := 0; THREE.y := 0; THREE.z := 5 |};
     THREE.controlsTarget := Some {| THREE.x := 0; THREE.y := 0; THREE.z := 0 |} |}.

(** Identities of the root scene, the camera and the controls. *)
Definition canvasDeps : React.CameraDeps := (0%nat, 1%nat, Some 2%nat).

Definition uniformBitmap : Bitmap :=
  {| bitmapWidth := 640; bitmapHeight := 480; bitmapPixel := uniform |}.

(** The same bitmap with other values stored beyond its bounds. *)
Definition uniformBitmap' : Bitmap :=
  {| bitmapWidth := 640; bitmapHeight := 480;
     bitmapPixel := fun px py => if inBounds uniformBitmap px py then uniform px py
                                 else gradient px py |}.

Definition mounted (v : HTMLVideoElement) : Refs :=
  {| webcamRef := Some {| video := Some v |};
     canvasRef := Some {| getContext := true |} |}.

End Examples.

(** * Properties *)

(** ** The page as a state machine *)


Lemma pickColor_captured refs e s s' :
  Page.pickColor refs e s = Page.Returned s' ->
  Page.isCaptured s' = Page.isCaptured s \/ Page.isCaptured s' = true.
Proof.
  unfold Page.pickColor. intros H.
  repeat (case_match; simplify_eq/=); auto.
Qed.


Lemma handle_captured_mono s a :
  Page.isCaptured s = true -> Page.isCaptured (Page.handle s a) = true.
Proof.
  intros Hs. destruct a as [refs e| |]; simpl; try done.
  destruct (Page.pickColor refs e s) as [s'|] eqn:Hp; [|done].
  destruct (pickColor_captured _ _ _ _ Hp) as [-> | ->]; done.
Qed.


(** C8. When the video is not ready ([readyState] other than 4, or no
    video element yet), the handler of [page.tsx] returns at its guard: it
    does not throw, it sets no colour, and the state (colour, flag and mode)
    is the one it was called with. *)
Theorem C8_not_ready_is_noop (refs : DOM.Refs) (e : DOM.PointerInput) (s : Page.State) :
  (forall webcam video,
      DOM.webcamRef refs = Some webcam -> DOM.video webcam = Some video ->
      DOM.readyState video <> 4) ->
  Page.pickColor refs e s = Page.Returned s
  /\ Page.handle s (Page.Tap refs e) = s.
Proof.
  intros Hnot.
  assert (Hp : Page.pickColor refs e s = Page.Returned s).
  { unfold Page.pickColor.
    destruct (DOM.webcamRef refs) as [webcam|] eqn:Hw; [|done].
    destruct (DOM.canvasRef refs) as [canvas|]; [|done].
    destruct (DOM.video webcam) as [video|] eqn:Hv; [|done].
    specialize (Hnot webcam video eq_refl Hv).
    destruct (DOM.readyState video =? 4) eqn:Hr; [lia | done]. }
  split; [done|]. simpl. by rewrite Hp.
Qed.

(** A stream in state 2 (HAVE_CURRENT_DATA), tapped with an empty touch list. *)
Lemma C8_not_ready_witness :
  let refs := Examples.mounted (Examples.phoneVideo 2 Examples.gradient) in
  Page.pickColor refs (DOM.TouchEvent []) Page.initialState
    = Page.Returned Page.initialState
  /\ Page.handle Page.initialState (Page.Tap refs (DOM.TouchEvent [])) = Page.initialState.
Proof.
  apply (C8_not_ready_is_noop
           (Examples.mounted (Examples.phoneVideo 2 Examples.gradient))).
  intros webcam video Hw Hv. simpl in Hw. inversion Hw; subst. simpl in Hv.
  inversion Hv; subst. simpl. lia.
Defined.



(** C10. The two mode buttons change the mode and nothing else: the
    colour and [isCaptured] are kept, so going back to the camera and into
    the preview again shows the colour sampled before; and no action ever
    clears [isCaptured] once it is set. *)
Theorem C10_mode_buttons_frame (s : Page.State) :
  Page.handle s Page.ClickBack
    = {| Page.color := Page.color s; Page.mode := Page.camera;
         Page.isCaptured := Page.isCaptured s |}
  /\ Page.handle s Page.ClickViewVR
    = {| Page.color := Page.color s; Page.mode := Page.vr;
         Page.isCaptured := Page.isCaptured s |}
  /\ Page.color (Page.handle (Page.handle s Page.ClickBack) Page.ClickViewVR)
     = Page.color s
  /\ (forall acts s', Page.run s acts = Some s' ->
        Page.isCaptured s = true -> Page.isCaptured s' = true).
Proof.
  repeat split.
  intros acts. revert s. induction acts as [|a acts IH]; intros s s' Hrun Hc; simpl in *.
  - by simplify_eq.
  - destruct (Page.rendered s a); [|done].
    eapply IH; [done|]. by apply handle_captured_mono.
Qed.

(** Back to the camera, a tap that is not ready, and into the preview again. *)
Lemma C10_mode_buttons_witness :
  Page.isCaptured {| Page.color := "#c01c00"; Page.mode := Page.vr; Page.isCaptured := true |}
  = true.
Proof.
  apply (proj2 (proj2 (proj2 (C10_mode_buttons_frame
           {| Page.color := "#c01c00"; Page.mode := Page.vr; Page.isCaptured := true |})))
           [Page.ClickBack;
            Page.Tap (Examples.mounted (Examples.phoneVideo 2 Examples.gradient))
                     (DOM.MouseEvent 10 10);
            Page.ClickViewVR]).
  - vm_compute. reflexivity.
  - reflexivity.
Defined.

(** ** The coordinate mapping of the sampler *)


Lemma div_nonzero (a b : Q) : ~ (b == 0)%Q -> JS.div a b = Some (a / b)%Q.
Proof.
  intros H. unfold JS.div. destruct (Qeq_bool b 0) eqn:E; [|done].
  apply Qeq_bool_iff in E. done.
Qed.



Lemma floor_in_range (q : Q) (n : Z) :
  (0 <= q)%Q -> (q < inject_Z n)%Q -> 0 <= Qfloor q < n.
Proof.
  intros H0 Hn. split.
  - change 0 with (Qfloor 0). by apply Qfloor_resp_le.
  - rewrite Zlt_Qlt. eapply Qle_lt_trans; [apply Qfloor_le | done].
Qed.





(** ** Hexadecimal notation *)

Lemma byteVal_range (b : byte) : 0 <= byteVal b <= 255.
Proof.
  unfold byteVal. pose proof (Byte.to_N_bounded b). lia.
Qed.

Lemma ToInt32_small (z : Z) : - 2 ^ 31 <= z < 2 ^ 31 -> JS.ToInt32 z = z.
Proof.
  intros H. unfold JS.ToInt32. rewrite Z.mod_small; lia.
Qed.

Lemma shl_16 (a : Z) : 0 <= a <= 255 -> JS.shl a 16 = a * 65536.
Proof.
  intros H. unfold JS.shl. change (Z.land 16 31) with 16.
  rewrite (ToInt32_small a) by lia.
  rewrite Z.shiftl_mul_pow2 by lia. change (2 ^ 16) with 65536.
  apply ToInt32_small. lia.
Qed.

Lemma shl_8 (a : Z) : 0 <= a <= 255 -> JS.shl a 8 = a * 256.
Proof.
  intros H. unfold JS.shl. change (Z.land 8 31) with 8.
  rewrite (ToInt32_small a) by lia.
  rewrite Z.shiftl_mul_pow2 by lia. change (2 ^ 8) with 256.
  apply ToInt32_small. lia.
Qed.

Lemma hexDigit_isHex (d : Z) : Spec.isHexDigit (JS.hexDigit d) = true.
Proof.
  unfold JS.hexDigit. generalize (Z.to_nat d). intros n.
  do 17 (destruct n as [|n]; [reflexivity|]). destruct n; reflexivity.
Qed.

Lemma toRadix16_allHex (fuel : nat) : forall n acc,
  Spec.allHexDigits acc = true -> Spec.allHexDigits (JS.toRadix16 fuel n acc) = true.
Proof.
  induction fuel as [|fuel IH]; intros n acc Hacc; simpl; [done|].
  assert (Spec.allHexDigits (String (JS.hexDigit (n mod 16)) acc) = true)
    by (simpl; by rewrite hexDigit_isHex).
  destruct (n / 16 =? 0); [done | by apply IH].
Qed.

Lemma toRadix16_length (k : nat) : forall fuel n acc,
  (k < fuel)%nat -> 16 ^ Z.of_nat k <= n < 16 ^ Z.of_nat (S k) ->
  String.length (JS.toRadix16 fuel n acc) = (S k + String.length acc)%nat.
Proof.
  induction k as [|k IH]; intros fuel n acc Hfuel Hn;
    (destruct fuel as [|fuel]; [lia|]); simpl JS.toRadix16.
  - change (16 ^ Z.of_nat 1) with 16 in Hn. change (16 ^ Z.of_nat 0) with 1 in Hn.
    rewrite Z.div_small by lia. done.
  - rewrite !Nat2Z.inj_succ, !Z.pow_succ_r in Hn by lia.
    assert (H16 : 0 < 16 ^ Z.of_nat k) by (apply Z.pow_pos_nonneg; lia).
    assert (Hq : 16 ^ Z.of_nat k <= n / 16 < 16 ^ Z.of_nat (S k)).
    { rewrite Nat2Z.inj_succ, Z.pow_succ_r by lia. split.
      - apply Z.div_le_lower_bound; lia.
      - apply Z.div_lt_upper_bound; lia. }
    destruct (n / 16 =? 0) eqn:E; [lia|].
    rewrite IH by (done || lia). simpl. lia.
Qed.

Lemma hexOfPixel_wellFormed (p0 p1 p2 : Z) :
  0 <= p0 <= 255 -> 0 <= p1 <= 255 -> 0 <= p2 <= 255 ->
  Spec.wellFormedHex (Page.hexOfPixel p0 p1 p2) = true.
Proof.
  intros H0 H1 H2. unfold Page.hexOfPixel.
  rewrite shl_16, shl_8 by done. change (JS.shl 1 24) with 16777216.
  set (n := 16777216 + p0 * 65536 + p1 * 256 + p2).
  assert (Hn : 16 ^ Z.of_nat 6 <= n < 16 ^ Z.of_nat 7).
  { change (16 ^ Z.of_nat 6) with 16777216. change (16 ^ Z.of_nat 7) with 268435456.
    unfold n. lia. }
  assert (Hlen : String.length (JS.toString16 n) = 7%nat).
  { unfold JS.toString16. rewrite (toRadix16_length 6); [done| |done].
    assert (24 <= Z.log2 n).
    { apply Z.log2_le_pow2; [lia|]. change (2 ^ 24) with 16777216. 
      change (16 ^ Z.of_nat 6) with 16777216 in Hn. lia. }
    lia. }
  assert (Hhex : Spec.allHexDigits (JS.toString16 n) = true)
    by (by apply toRadix16_allHex).
  destruct (JS.toString16 n) as [|c rest]; [done|].
  simpl in *. apply andb_true_iff in Hhex as [_ Hrest].
  rewrite Hrest. injection Hlen as ->. done.
Qed.
(** ** The averaging sampler *)

Lemma sumChannels_window bm (coords : list (Z * Z)) : forall r g b,
  Part001.sumChannels
    (coords ≫= fun '(px, py) => DOM.pixelBytes (DOM.pixelAt bm px py)) (r, g, b)
  = (r + Spec.channelSum DOM.red ((fun c => DOM.pixelAt bm c.1 c.2) <$> coords),
     g + Spec.channelSum DOM.green ((fun c => DOM.pixelAt bm c.1 c.2) <$> coords),
     b + Spec.channelSum DOM.blue ((fun c => DOM.pixelAt bm c.1 c.2) <$> coords)).
Proof.
  induction coords as [|[px py] coords IH]; intros r g b; simpl.
  - by rewrite !Z.add_0_r.
  - rewrite IH, <- !Z.add_assoc. reflexivity.
Qed.

Lemma channelSum_valid (channel : DOM.Pixel -> byte) bm (coords : list (Z * Z)) :
  channel DOM.transparentBlack = x00 ->
  Spec.channelSum channel ((fun c => DOM.pixelAt bm c.1 c.2) <$> coords)
  = Spec.channelSum channel (Spec.pixelsAt bm (Spec.validCoords bm coords)).
Proof.
  intros Hch. induction coords as [|[px py] coords IH]; [done|].
  change (Spec.channelSum channel ((fun c => DOM.pixelAt bm c.1 c.2) <$> (px, py) :: coords))
    with (byteVal (channel (DOM.pixelAt bm px py))
          + Spec.channelSum channel ((fun c => DOM.pixelAt bm c.1 c.2) <$> coords)).
  rewrite IH. unfold Spec.validCoords, DOM.pixelAt. cbn [List.filter fst snd].
  destruct (DOM.inBounds bm px py); [done|].
  by rewrite Hch.
Qed.

Lemma channelSum_range (channel : DOM.Pixel -> byte) (pixels : list DOM.Pixel) :
  0 <= Spec.channelSum channel pixels <= 255 * Z.of_nat (length pixels).
Proof.
  induction pixels as [|p pixels IH]; simpl; [lia|].
  pose proof (byteVal_range (channel p)). lia.
Qed.

Lemma validCoords_length bm (coords : list (Z * Z)) :
  (length (Spec.pixelsAt bm (Spec.validCoords bm coords)) <= length coords)%nat.
Proof.
  unfold Spec.pixelsAt, Spec.validCoords. rewrite length_fmap.
  induction coords as [|c coords IH]; simpl; [done|].
  destruct (DOM.inBounds bm c.1 c.2); simpl; lia.
Qed.

Lemma Math_round_range (s : Z) :
  0 <= s <= 255 * 25 -> 0 <= JS.Math_round (inject_Z s / 25) <= 255.
Proof.
  intros Hs. unfold JS.Math_round.
  assert (H0 : (inject_Z 0 <= inject_Z s)%Q) by (rewrite <- Zle_Qle; lia).
  assert (H1 : (inject_Z s <= inject_Z 6375)%Q) by (rewrite <- Zle_Qle; lia).
  change (inject_Z 0) with 0%Q in H0. change (inject_Z 6375) with 6375%Q in H1.
  assert (Hlo : (0 <= inject_Z s / 25)%Q) by (apply Qle_shift_div_l; lra).
  assert (Hhi : (inject_Z s / 25 <= 255)%Q) by (apply Qle_shift_div_r; lra).
  revert Hlo Hhi. generalize (inject_Z s / 25)%Q. intros q Hlo Hhi.
  assert (0 <= Qfloor (q + (1 # 2)) < 256); [|lia].
  apply floor_in_range; [lra|]. change (inject_Z 256) with 256%Q. lra.
Qed.

Lemma windowCoords_length (x0 y0 : Z) : length (DOM.windowCoords x0 y0 5 5) = 25%nat.
Proof. reflexivity. Qed.

Lemma getImageData_length bm (sx sy : Q) (sw sh : Z) :
  length (DOM.getImageData bm sx sy sw sh)
  = (4 * length (DOM.windowCoords (JS.IntegerPart sx) (JS.IntegerPart sy) sw sh))%nat.
Proof.
  unfold DOM.getImageData.
  induction (DOM.windowCoords _ _ sw sh) as [|[px py] coords IH]; [done|].
  rewrite bind_cons, length_app, IH. simpl. lia.
Qed.

Lemma getImageData_ext bm bm' (sx sy : Q) (sw sh : Z) :
  DOM.bitmapWidth bm' = DOM.bitmapWidth bm ->
  DOM.bitmapHeight bm' = DOM.bitmapHeight bm ->
  (forall px py, DOM.inBounds bm px py = true ->
                 DOM.bitmapPixel bm' px py = DOM.bitmapPixel bm px py) ->
  DOM.getImageData bm' sx sy sw sh = DOM.getImageData bm sx sy sw sh.
Proof.
  intros Hw Hh Hpx. unfold DOM.getImageData.
  induction (DOM.windowCoords _ _ sw sh) as [|[px py] coords IH]; [done|].
  rewrite !bind_cons, IH. f_equal.
  assert (E : DOM.pixelAt bm' px py = DOM.pixelAt bm px py); [|by rewrite E].
  unfold DOM.pixelAt, DOM.inBounds. rewrite Hw, Hh.
  fold (DOM.inBounds bm px py).
  destruct (DOM.inBounds bm px py) eqn:Hin; [by apply Hpx | done].
Qed.

Lemma averageBlock_eq bm (x y : Q) :
  let window := DOM.windowCoords (JS.IntegerPart (x - 2)) (JS.IntegerPart (y - 2)) 5 5 in
  let valid := Spec.pixelsAt bm (Spec.validCoords bm window) in
  let avg channel := JS.Math_round (inject_Z (Spec.channelSum channel valid) / 25) in
  Part001.averageBlock bm x y
  = Some (Page.hexOfPixel (avg DOM.red) (avg DOM.green) (avg DOM.blue)).
Proof.
  intros window valid avg. unfold Part001.averageBlock.
  rewrite getImageData_length, windowCoords_length.
  unfold DOM.getImageData. fold window.
  rewrite sumChannels_window, !channelSum_valid by done. fold valid.
  change (JS.div (inject_Z (Z.of_nat (4 * 25))) 4) with (Some (inject_Z 100 / 4)%Q).
  cbn [mbind option_bind].
  rewrite !div_nonzero by (intros E; vm_compute in E; done).
  cbn [mbind option_bind]. unfold Page.hexOfPixel, avg. rewrite !Z.add_0_l.
  assert (E : forall s, JS.Math_round (inject_Z s / (inject_Z 100 / 4))
                        = JS.Math_round (inject_Z s / 25)).
  { intros s. unfold JS.Math_round. apply Qfloor_comp.
    change (inject_Z 100) with 100%Q. field. }
  by rewrite !E.
Qed.

(** C2, as amended.  On a ready video the averaging sampler of [part_001]
    asks the canvas for the 5x5 block whose corner is the integer part of
    [(x - 2, y - 2)], wherever that block lies: the window is not clamped.
    The canvas returns 25 pixels, transparent black for the positions
    outside the bitmap, so no stored pixel outside the bounds is read (the
    result does not depend on what lies beyond them); each channel is the
    sum over the in-bounds pixels of the window divided by 25, not by their
    number, rounded; and the handler returns with a colour in the notation
    [#rrggbb]. *)
Theorem C2_block_average_unclamped
    (webcam : DOM.Webcam) (canvas : DOM.HTMLCanvasElement)
    (video : DOM.HTMLVideoElement) (e : DOM.PointerInput) (cX cY : Q)
    (s : Part001.State) :
  let rect := DOM.getBoundingClientRect video in
  let bitmap := DOM.drawImage video in
  let x := ((cX - DOM.left rect) * (inject_Z (DOM.videoWidth video) / DOM.width rect))%Q in
  let y := ((cY - DOM.top rect) * (inject_Z (DOM.videoHeight video) / DOM.height rect))%Q in
  let window := DOM.windowCoords (JS.IntegerPart (x - 2)) (JS.IntegerPart (y - 2)) 5 5 in
  let valid := Spec.pixelsAt bitmap (Spec.validCoords bitmap window) in
  let avg channel := JS.Math_round (inject_Z (Spec.channelSum channel valid) / 25) in
  let hex := Page.hexOfPixel (avg DOM.red) (avg DOM.green) (avg DOM.blue) in
  DOM.video webcam = Some video ->
  DOM.readyState video = 4 ->
  DOM.getContext canvas = true ->
  Page.clientPoint e = Some (cX, cY) ->
  ~ (DOM.width rect == 0)%Q -> ~ (DOM.height rect == 0)%Q ->
  Part001.pickColor {| DOM.webcamRef := Some webcam; DOM.canvasRef := Some canvas |} e s
    = Part001.Returned
        {| Part001.color := hex; Part001.mode := Part001.mode s;
           Part001.isCaptured := true; Part001.tapPos := (cX, cY) |}
  /\ Spec.wellFormedHex hex = true
  /\ length window = 25%nat
  /\ (forall bitmap',
        DOM.bitmapWidth bitmap' = DOM.bitmapWidth bitmap ->
        DOM.bitmapHeight bitmap' = DOM.bitmapHeight bitmap ->
        (forall px py, DOM.inBounds bitmap px py = true ->
                       DOM.bitmapPixel bitmap' px py = DOM.bitmapPixel bitmap px py) ->
        Part001.averageBlock bitmap' x y = Some hex).
Proof.
  intros rect bitmap x y window valid avg hex Hv Hready Hctx He Hw Hh.
  assert (Havg : Part001.averageBlock bitmap x y = Some hex)
    by apply averageBlock_eq.
  assert (Hrange : forall channel, 0 <= avg channel <= 255).
  { intros channel. apply Math_round_range.
    pose proof (channelSum_range channel valid) as Hs.
    pose proof (validCoords_length bitmap window) as Hl. fold valid in Hl.
    assert (Hwl : length window = 25%nat) by apply windowCoords_length.
    rewrite Hwl in Hl. lia. }
  split; [|split; [|split]].
  - unfold Part001.pickColor. cbn [DOM.webcamRef DOM.canvasRef].
    rewrite Hv, Hready, He, Hctx. cbn [Z.eqb Pos.eqb negb].
    fold rect. rewrite !div_nonzero by done.
    cbn [fmap option_fmap option_map]. fold x. fold y. fold bitmap.
    rewrite Havg. done.
  - by apply hexOfPixel_wellFormed.
  - apply windowCoords_length.
  - intros bitmap' Hbw Hbh Hpx. rewrite <- Havg. unfold Part001.averageBlock.
    by rewrite (getImageData_ext bitmap bitmap').
Qed.

(** A tap on the top-left corner of a uniform (10, 20, 30) frame. *)
Lemma C2_block_average_witness :
  let video := Examples.phoneVideo 4 Examples.uniform in
  Part001.pickColor (Examples.mounted video) (DOM.MouseEvent 0 0)
      {| Part001.color := "#ffffff"; Part001.mode := Part001.camera;
         Part001.isCaptured := false; Part001.tapPos := (0, 0)%Q |}
    = Part001.Returned
        {| Part001.color := "#04070b"; Part001.mode := Part001.camera;
           Part001.isCaptured := true; Part001.tapPos := (0, 0)%Q |}.
Proof.
  apply (C2_block_average_unclamped
           {| DOM.video := Some (Examples.phoneVideo 4 Examples.uniform) |}
           {| DOM.getContext := true |}
           (Examples.phoneVideo 4 Examples.uniform)
           (DOM.MouseEvent 0 0) 0 0
           {| Part001.color := "#ffffff"; Part001.mode := Part001.camera;
              Part001.isCaptured := false; Part001.tapPos := (0, 0)%Q |});
    try reflexivity; simpl; unfold Qeq; simpl; lia.
Defined.

(** At the corner (0, 0) of a uniform (10, 20, 30) image the code returns
    (4, 7, 11): 9 pixels summed and divided by 25.  The mean over the 9 valid
    pixels is (10, 20, 30). *)
Lemma C2_corner_average_counterexample :
  Part001.averageBlock Examples.uniformBitmap 0 0 = Some "#04070b"%string
  /\ Spec.clampedAverage Examples.uniformBitmap 0 0 = Some (10, 20, 30)
  /\ Page.hexOfPixel 10 20 30 = "#0a141e"%string.
Proof. vm_compute. repeat split. Qed.

(** ** The camera *)

Lemma useEffect_same {D S : Type} `{EqDecision D} (effect : S -> S) (deps : D) (s : S) :
  React.useEffect effect (Some deps) deps s = s.
Proof. unfold React.useEffect. by rewrite decide_True. Qed.

Lemma useEffect_changed {D S : Type} `{EqDecision D}
    (effect : S -> S) (prev : option D) (deps : D) (s : S) :
  prev <> Some deps -> React.useEffect effect prev deps s = effect s.
Proof. intros H0. unfold React.useEffect. by rewrite decide_False. Qed.

Lemma getCenter_nonempty (box : THREE.Box3) :
  THREE.isEmpty box = false ->
  (THREE.x (THREE.getCenter box) == (THREE.x (THREE.min box) + THREE.x (THREE.max box)) / 2
   /\ THREE.z (THREE.getCenter box) == (THREE.z (THREE.min box) + THREE.z (THREE.max box)) / 2)%Q.
Proof.
  intros H. unfold THREE.getCenter. rewrite H. simpl. split; field.
Qed.

(** C6, as amended.  The camera effect runs after the first render of the
    component and after a render in which the scene, the camera or the
    controls object is another one, and not otherwise (a render with the
    same three objects leaves the pose alone).  When it runs on a loaded
    scene with the controls registered, the eye is put at
    [(centerX, 1.6, centerZ + offset)] with offset 0 in [page.tsx], 1 in
    [part_000] and 0.5 in [part_001], and the target at
    [(centerX, 1.6, centerZ - 0.1)] in [page.tsx] (a level gaze at eye
    height) and at [(centerX, 1.4, centerZ)] in the other two. *)
Theorem C6_camera_pose
    (sc : THREE.Scene) (v : THREE.Viewer) (target0 : THREE.Vector3)
    (prev : option React.CameraDeps) (deps : React.CameraDeps) :
  let box := THREE.setFromObject sc in
  let centerX := ((THREE.x (THREE.min box) + THREE.x (THREE.max box)) / 2)%Q in
  let centerZ := ((THREE.z (THREE.min box) + THREE.z (THREE.max box)) / 2)%Q in
  let pose eye target v' :=
    exists e t, v' = {| THREE.cameraPosition := e; THREE.controlsTarget := Some t |}
                /\ sameVector e eye /\ sameVector t target in
  THREE.isEmpty box = false ->
  THREE.controlsTarget v = Some target0 ->
  prev <> Some deps ->
  pose {| THREE.x := centerX; THREE.y := 1.6; THREE.z := centerZ |}
       {| THREE.x := centerX; THREE.y := 1.6; THREE.z := (centerZ - 0.1)%Q |}
       (Page.CameraManager prev deps (Some sc) v)
  /\ pose {| THREE.x := centerX; THREE.y := 1.6; THREE.z := (centerZ + 1)%Q |}
          {| THREE.x := centerX; THREE.y := 1.4; THREE.z := centerZ |}
          (Part000.CameraManager prev deps (Some sc) v)
  /\ pose {| THREE.x := centerX; THREE.y := 1.6; THREE.z := (centerZ + 0.5)%Q |}
          {| THREE.x := centerX; THREE.y := 1.4; THREE.z := centerZ |}
          (Part001.CameraManager prev deps (Some sc) v)
  /\ Page.CameraManager (Some deps) deps (Some sc) v = v
  /\ Part000.CameraManager (Some deps) deps (Some sc) v = v
  /\ Part001.CameraManager (Some deps) deps (Some sc) v = v.
Proof.
  intros box centerX centerZ pose Hbox Hctl Hdeps.
  destruct (getCenter_nonempty box Hbox) as [Hx Hz].
  unfold Page.CameraManager, Part000.CameraManager, Part001.CameraManager.
  rewrite !useEffect_same, !useEffect_changed by done.
  unfold Page.positionCamera, Part000.positionCamera, Part001.positionCamera.
  rewrite Hctl. fold box.
  repeat split; try (eexists _, _; split; [reflexivity|]);
    unfold sameVector; simpl; rewrite ?Hx, ?Hz; repeat split; reflexivity.
Qed.

(** A second render with the same scene, camera and controls. *)
Lemma C6_camera_pose_witness :
  Page.CameraManager (Some Examples.canvasDeps) Examples.canvasDeps
    (Some Examples.emptyRoom) Examples.defaultViewer = Examples.defaultViewer.
Proof.
  apply (C6_camera_pose Examples.emptyRoom Examples.defaultViewer
           {| THREE.x := 0; THREE.y := 0; THREE.z := 0 |}
           None Examples.canvasDeps); [reflexivity | reflexivity | discriminate].
Defined.

(** In [page.tsx] the target is as high as the eye and 0.1 in front of the
    centre of the box. *)
Lemma C6_level_gaze_counterexample :
  match THREE.controlsTarget
          (Page.CameraManager None Examples.canvasDeps
             (Some Examples.emptyRoom) Examples.defaultViewer) with
  | Some target =>
      (THREE.z (THREE.getCenter Examples.roomBox) == 0)%Q
      /\ (THREE.y target == 1.6)%Q
      /\ ~ (THREE.y target < 1.6)%Q
      /\ ~ (THREE.z target == 0)%Q
  | None => False
  end.
Proof. vm_compute. repeat split; intros H; discriminate H. Qed.

(** ** The colour effect *)

Lemma forEachWall_refs (update : THREE.MeshStandardMaterial -> THREE.MeshStandardMaterial)
    (walls : list nat) (objs : list THREE.Object3D) :
  forall mats,
  forEachWall update walls objs mats
  = foldl (fun mats ref => alter update ref mats) mats (wallRefs walls objs).
Proof.
  unfold forEachWall, wallRefs.
  induction walls as [|i walls IH]; intros mats; [done|].
  cbn [foldl omap list_omap]. rewrite IH. unfold meshAt.
  destruct (objs !! i) as [[mesh|nm]|]; reflexivity.
Qed.

Lemma alter_all_lookup {A : Type} (f : A -> A) (refs : list nat) :
  (forall a, f (f a) = f a) ->
  forall (l : list A) (ref : nat),
  foldl (fun l ref => alter f ref l) l refs !! ref
  = if decide (ref ∈ refs) then f <$> l !! ref else l !! ref.
Proof.
  intros Hf. induction refs as [|r0 refs IH]; intros l ref.
  - cbn [foldl]. case_decide as Hin; [|done]. by apply elem_of_nil in Hin.
  - cbn [foldl]. rewrite IH, list_lookup_alter.
    repeat case_decide; subst; try done;
      try (exfalso;
           match goal with
           | Hn : _ ∉ _ :: _ |- _ => apply Hn; first [by left | by right]
           | Hi : _ ∈ _ :: _ |- _ => apply elem_of_cons in Hi as [?|?]; done
           end).
    destruct (l !! ref); simpl; [by rewrite Hf | done].
Qed.

Lemma alter_all_length {A : Type} (f : A -> A) (refs : list nat) :
  forall l : list A, length (foldl (fun l ref => alter f ref l) l refs) = length l.
Proof.
  induction refs as [|r0 refs IH]; intros l; [done|].
  cbn [foldl]. by rewrite IH, length_alter.
Qed.

Lemma alter_all_idempotent {A : Type} (f : A -> A) (refs : list nat) (l : list A) :
  (forall a, f (f a) = f a) ->
  foldl (fun l ref => alter f ref l) (foldl (fun l ref => alter f ref l) l refs) refs
  = foldl (fun l ref => alter f ref l) l refs.
Proof.
  intros Hf. apply list_eq. intros ref. rewrite !alter_all_lookup by done.
  destruct (decide (ref ∈ refs)); [|done].
  destruct (l !! ref); simpl; [by rewrite Hf | done].
Qed.

Lemma set_idempotent (style : string) (c : THREE.Color) :
  THREE.set style (THREE.set style c) = THREE.set style c.
Proof.
  unfold THREE.set. repeat case_match; done.
Qed.

Lemma setColor_idempotent (f : THREE.Color -> THREE.Color) mat :
  (forall c, f (f c) = f c) -> setColor f (setColor f mat) = setColor f mat.
Proof. intros Hf. unfold setColor. simpl. by rewrite Hf. Qed.

Lemma recolor_idempotent pow (colorObj : THREE.Color) mat :
  Part001.recolor pow colorObj (Part001.recolor pow colorObj mat)
  = Part001.recolor pow colorObj mat.
Proof. reflexivity. Qed.

(** C7.  Applying a colour to the paintable materials twice leaves the
    store as one application leaves it, for every colour, every list of
    walls and every store, in [page.tsx] and in [part_001]; and an
    application changes neither the scene (the nodes with their names,
    positions and material references, hence the classification read from
    them) nor the number of materials. *)
Theorem C7_apply_color_idempotent
    (pow : Q -> Q -> Q) (walls : list nat) (wallColor : string) (w : THREE.World) :
  Page.applyWallColor walls wallColor (Page.applyWallColor walls wallColor w)
    = Page.applyWallColor walls wallColor w
  /\ THREE.scene (Page.applyWallColor walls wallColor w) = THREE.scene w
  /\ length (THREE.materials (Page.applyWallColor walls wallColor w))
     = length (THREE.materials w)
  /\ Part001.applyWallColor pow walls wallColor
       (Part001.applyWallColor pow walls wallColor w)
     = Part001.applyWallColor pow walls wallColor w
  /\ THREE.scene (Part001.applyWallColor pow walls wallColor w) = THREE.scene w
  /\ length (THREE.materials (Part001.applyWallColor pow walls wallColor w))
     = length (THREE.materials w).
Proof.
  unfold Page.applyWallColor, Part001.applyWallColor. cbn [THREE.scene THREE.materials].
  rewrite !forEachWall_refs, !alter_all_length.
  rewrite !alter_all_idempotent; [done | apply recolor_idempotent |].
  intros mat. apply setColor_idempotent, set_idempotent.
Qed.

(** ** The scan of the room *)

Lemma meshAt_cons_S obj objs k : meshAt (obj :: objs) (S k) = meshAt objs k.
Proof. reflexivity. Qed.

Lemma visit_cases minY i obj mats ws :
  (exists mesh oldMat,
      obj = THREE.IsMesh mesh /\ Page.paintable minY mesh = true
      /\ mats !! THREE.material mesh = Some oldMat
      /\ Page.visit minY i obj (mats, ws)
         = (THREE.IsMesh (setMaterial (length mats) mesh),
            (mats ++ [Page.newMat oldMat], ws ++ [i])))
  \/ (Page.visit minY i obj (mats, ws) = (obj, (mats, ws))
      /\ forall mesh, obj = THREE.IsMesh mesh -> Page.paintable minY mesh = true ->
                      mats !! THREE.material mesh = None).
Proof.
  unfold Page.visit. destruct obj as [mesh|nm]; [|right; split; [done|congruence]].
  destruct (Page.paintable minY mesh) eqn:Hp.
  - destruct (mats !! THREE.material mesh) as [oldMat|] eqn:Hl.
    + left. by exists mesh, oldMat.
    + right. split; [done|]. congruence.
  - right. split; [done|]. congruence.
Qed.

Lemma traverse_walls minY : forall objs i mats ws objs' mats' ws',
  traverse (Page.visit minY) i objs (mats, ws) = (objs', (mats', ws')) ->
  exists added news,
    ws' = ws ++ added /\ mats' = mats ++ news
    /\ length news = length added /\ length objs' = length objs
    /\ (forall k, (i + k)%nat ∉ added -> objs' !! k = objs !! k)
    /\ (forall n j, added !! n = Some j ->
          exists k mesh, j = (i + k)%nat /\ meshAt objs k = Some mesh
                         /\ Page.paintable minY mesh = true
                         /\ meshAt objs' k = Some (setMaterial (length mats + n) mesh))
    /\ (forall k mesh, meshAt objs k = Some mesh -> Page.paintable minY mesh = true ->
          (THREE.material mesh < length mats)%nat -> (i + k)%nat ∈ added)
    /\ (forall n1 n2 j1 j2, (n1 < n2)%nat -> added !! n1 = Some j1 ->
          added !! n2 = Some j2 -> (j1 < j2)%nat)
    /\ (forall j, j ∈ added -> (i <= j)%nat).
Proof.
  induction objs as [|obj rest IH]; intros i mats ws objs' mats' ws' Htr.
  - simpl in Htr. simplify_eq. exists [], []. rewrite !app_nil_r.
    repeat split; try done; intros;
      match goal with
      | H : [] !! _ = Some _ |- _ => by rewrite lookup_nil in H
      | H : meshAt [] _ = Some _ |- _ => unfold meshAt in H; by rewrite lookup_nil in H
      | H : _ ∈ [] |- _ => by apply elem_of_nil in H
      end.
  - cbn [traverse] in Htr.
    destruct (visit_cases minY i obj mats ws)
      as [(mesh & oldMat & -> & Hp & Hold & Hv) | [Hv Hno]]; rewrite Hv in Htr.
    + destruct (traverse (Page.visit minY) (S i) rest
                  (mats ++ [Page.newMat oldMat], ws ++ [i]))
        as [rest' [mats1 ws1]] eqn:Hrest.
      simplify_eq.
      destruct (IH _ _ _ _ _ _ Hrest)
        as (added & news & -> & -> & Hlen & Hlo & Hkeep & Hnew & Hall & Hinc & Hge).
      exists (i :: added), (Page.newMat oldMat :: news).
      rewrite <- !app_assoc. simpl. repeat split; try done; try lia.
      * intros [|k] Hk.
        -- exfalso. apply Hk. rewrite Nat.add_0_r. left.
        -- simpl. apply Hkeep. intros Hin. apply Hk.
           right. by replace (i + S k)%nat with (S i + k)%nat by lia.
      * intros [|n] j Hj; simpl in Hj.
        -- simplify_eq. exists 0%nat, mesh. rewrite !Nat.add_0_r. done.
        -- destruct (Hnew n j Hj) as (k & mesh' & -> & Hm & Hp' & Hm').
           exists (S k), mesh'. rewrite !meshAt_cons_S.
           repeat split; try done; [lia|].
           rewrite Hm'. f_equal. f_equal. rewrite length_app. simpl. lia.
      * intros [|k] mesh' Hm Hp' Hlt.
        -- rewrite Nat.add_0_r. left.
        -- right. replace (i + S k)%nat with (S i + k)%nat by lia.
           apply (Hall k mesh'); [done | done |]. rewrite length_app. simpl. lia.
      * intros [|n1] [|n2] j1 j2 Hlt H1 H2; simpl in *; try lia.
        -- simplify_eq. assert (S j1 <= j2)%nat; [|lia].
           apply Hge. by apply list_elem_of_lookup_2 in H2.
        -- apply (Hinc n1 n2); [lia | done | done].
      * intros j Hj. apply elem_of_cons in Hj as [->|Hj]; [done|].
        apply Hge in Hj. lia.
    + destruct (traverse (Page.visit minY) (S i) rest (mats, ws))
        as [rest' [mats1 ws1]] eqn:Hrest.
      simplify_eq.
      destruct (IH _ _ _ _ _ _ Hrest)
        as (added & news & -> & -> & Hlen & Hlo & Hkeep & Hnew & Hall & Hinc & Hge).
      exists added, news. simpl. repeat split; try done; try lia.
      * intros [|k] Hk; [done|]. simpl. apply Hkeep.
        by replace (S i + k)%nat with (i + S k)%nat by lia.
      * intros n j Hj.
        destruct (Hnew n j Hj) as (k & mesh' & -> & Hm & Hp' & Hm').
        exists (S k), mesh'. rewrite !meshAt_cons_S. repeat split; try done. lia.
      * intros [|k] mesh' Hm Hp' Hlt.
        -- exfalso. unfold meshAt in Hm. simpl in Hm.
           destruct obj as [mesh|nm]; [|done]. simplify_eq.
           specialize (Hno mesh' eq_refl Hp').
           apply lookup_ge_None in Hno. lia.
        -- replace (i + S k)%nat with (S i + k)%nat by lia. by apply (Hall k mesh').
      * intros j Hj. apply Hge in Hj. lia.
Qed.

Lemma walls_spec w w' ws :
  Page.walls w = (w', ws) ->
  let minY := THREE.y (THREE.min (THREE.setFromObject (THREE.scene w))) in
  let objs := THREE.nodes (THREE.scene w) in
  let objs' := THREE.nodes (THREE.scene w') in
  exists news,
    THREE.materials w' = THREE.materials w ++ news
    /\ length news = length ws
    /\ (forall k, k ∉ ws -> objs' !! k = objs !! k)
    /\ (forall n j, ws !! n = Some j ->
          exists mesh, meshAt objs j = Some mesh /\ Page.paintable minY mesh = true
                       /\ meshAt objs' j
                          = Some (setMaterial (length (THREE.materials w) + n) mesh))
    /\ (forall k mesh, meshAt objs k = Some mesh -> Page.paintable minY mesh = true ->
          (THREE.material mesh < length (THREE.materials w))%nat -> k ∈ ws)
    /\ (forall n1 n2 j, ws !! n1 = Some j -> ws !! n2 = Some j -> n1 = n2).
Proof.
  intros Hw minY objs objs'. unfold Page.walls in Hw.
  destruct (traverse _ 0 _ _) as [objs1 [mats1 list1]] eqn:Htr.
  simplify_eq. subst objs' objs minY. simpl.
  destruct (traverse_walls _ _ _ _ _ _ _ _ Htr)
    as (added & news & -> & -> & Hlen & Hlo & Hkeep & Hnew & Hall & Hinc & Hge).
  simpl in *. exists news. repeat split; try done.
  - intros n j Hj. destruct (Hnew n j Hj) as (k & mesh & -> & ?). by exists mesh.
  - intros n1 n2 j H1 H2.
    destruct (Nat.lt_trichotomy n1 n2) as [Hlt|[->|Hlt]]; [|done|].
    + pose proof (Hinc _ _ _ _ Hlt H1 H2). lia.
    + pose proof (Hinc _ _ _ _ Hlt H2 H1). lia.
Qed.

Lemma wallRefs_elem ref walls objs :
  ref ∈ wallRefs walls objs ->
  exists i mesh, i ∈ walls /\ meshAt objs i = Some mesh /\ THREE.material mesh = ref.
Proof.
  unfold wallRefs. intros (i & Hi & Hm)%list_elem_of_omap.
  destruct (meshAt objs i) as [mesh|] eqn:E; simplify_eq/=. by exists i, mesh.
Qed.

Lemma Scene_old_untouched wallColor w w' ws ref :
  Page.Scene wallColor w = (w', ws) ->
  (ref < length (THREE.materials w))%nat ->
  THREE.materials w' !! ref = THREE.materials w !! ref.
Proof.
  unfold Page.Scene. destruct (Page.walls w) as [w1 list] eqn:Hw. intros ? Hlt.
  simplify_eq. destruct (walls_spec _ _ _ Hw) as (news & Hm & _ & _ & Hnew & _).
  unfold Page.applyWallColor. cbn [THREE.materials].
  rewrite forEachWall_refs, alter_all_lookup
    by (intros mat; apply setColor_idempotent, set_idempotent).
  case_decide as Hin.
  - exfalso. apply wallRefs_elem in Hin as (i & mesh & Hi & Hmesh & <-).
    apply list_elem_of_lookup_1 in Hi as [n Hn].
    destruct (Hnew n i Hn) as (mesh0 & _ & _ & Hm').
    rewrite Hm' in Hmesh. simplify_eq. simpl in Hlt. lia.
  - rewrite Hm. by apply lookup_app_l.
Qed.

Lemma Scene_nodes wallColor w w' ws :
  Page.Scene wallColor w = (w', ws) ->
  exists w1, Page.walls w = (w1, ws) /\ THREE.scene w' = THREE.scene w1.
Proof.
  unfold Page.Scene. destruct (Page.walls w) as [w1 list] eqn:Hw. intros ?.
  simplify_eq. by exists w1.
Qed.

(** The effect of [part_000] is a map over the nodes. *)
Lemma traverse_assign wallMat : forall objs i,
  traverse (Part000.visit wallMat) i objs tt
  = ((fun obj => fst (Part000.visit wallMat 0 obj tt)) <$> objs, tt).
Proof.
  induction objs as [|obj rest IH]; intros i; [done|].
  cbn [traverse].
  assert (E : Part000.visit wallMat i obj tt
              = (fst (Part000.visit wallMat 0 obj tt), tt)).
  { destruct obj as [mesh|nm]; simpl; [|done]. by destruct (Part000.paintable mesh). }
  rewrite E, IH. done.
Qed.

Lemma assign_meshAt wallMat w i mesh :
  meshAt (THREE.nodes (THREE.scene w)) i = Some mesh ->
  meshAt (THREE.nodes (THREE.scene (Part000.assignWallMaterial wallMat w))) i
  = Some (if Part000.paintable mesh then setMaterial wallMat mesh else mesh).
Proof.
  unfold Part000.assignWallMaterial, meshAt. simpl. rewrite traverse_assign. simpl.
  rewrite list_lookup_fmap.
  destruct (THREE.nodes (THREE.scene w) !! i) as [[mesh'|nm]|]; try done.
  intros ?. simplify_eq. simpl. by destruct (Part000.paintable mesh).
Qed.

(** ** Ownership of the materials *)

Lemma wallMaterial_fresh w w1 wallMat :
  Part000.wallMaterial w = (w1, wallMat) ->
  wallMat = length (THREE.materials w)
  /\ THREE.scene w1 = THREE.scene w
  /\ THREE.materials w1 = THREE.materials w ++ [Part000.newWallMaterial].
Proof. unfold Part000.wallMaterial. intros ?. by simplify_eq. Qed.

Lemma part000_Scene_spec pow wallColor w w' wallMat :
  Part000.Scene pow wallColor w = (w', wallMat) ->
  wallMat = length (THREE.materials w)
  /\ (forall i mesh, meshAt (THREE.nodes (THREE.scene w)) i = Some mesh ->
        meshAt (THREE.nodes (THREE.scene w')) i
        = Some (if Part000.paintable mesh then setMaterial wallMat mesh else mesh))
  /\ (forall ref, (ref < length (THREE.materials w))%nat ->
        THREE.materials w' !! ref = THREE.materials w !! ref)
  /\ THREE.color <$> THREE.materials w' !! wallMat
     = Some (THREE.convertSRGBToLinear pow (THREE.set wallColor THREE.white)).
Proof.
  unfold Part000.Scene. destruct (Part000.wallMaterial w) as [w1 wm] eqn:Hw.
  intros ?. simplify_eq. destruct (wallMaterial_fresh _ _ _ Hw) as (-> & Hsc & Hm).
  split; [done|]. split; [|split].
  - intros i mesh Hi. unfold Part000.applyWallColor. cbn [THREE.scene].
    apply assign_meshAt. by rewrite Hsc.
  - intros ref Hlt. unfold Part000.applyWallColor, Part000.assignWallMaterial.
    cbn [THREE.materials]. rewrite list_lookup_alter_ne by lia.
    rewrite Hm. by apply lookup_app_l.
  - unfold Part000.applyWallColor, Part000.assignWallMaterial.
    cbn [THREE.materials]. rewrite list_lookup_alter, decide_True by done.
    rewrite Hm, lookup_app_r, Nat.sub_diag by done. done.
Qed.

(** C5, as amended.  In [page.tsx] every paintable mesh gets a new
    material instance of its own, which no other node of the scene refers
    to; in [part_000] all the paintable meshes refer to the one memoised
    [wallMaterial] instance, which no excluded mesh refers to.  In both, a
    mesh that is not paintable keeps its material reference, and the
    material it refers to is not modified, by the scan or by the colour
    that is applied afterwards. *)
Theorem C5_material_ownership
    (pow : Q -> Q -> Q) (wallColor : string) (w : THREE.World) :
  wellFormed w ->
  let objs := THREE.nodes (THREE.scene w) in
  let minY := THREE.y (THREE.min (THREE.setFromObject (THREE.scene w))) in
  (forall w' walls, Page.Scene wallColor w = (w', walls) ->
     let objs' := THREE.nodes (THREE.scene w') in
     (forall i, i ∈ walls <->
                exists mesh, meshAt objs i = Some mesh /\ Page.paintable minY mesh = true)
     /\ (forall i j mi mj, i ∈ walls -> i <> j ->
           meshAt objs' i = Some mi -> meshAt objs' j = Some mj ->
           THREE.material mi <> THREE.material mj)
     /\ (forall i mesh, i ∉ walls -> meshAt objs i = Some mesh ->
           meshAt objs' i = Some mesh
           /\ THREE.materials w' !! THREE.material mesh
              = THREE.materials w !! THREE.material mesh))
  /\ (forall w' wallMat, Part000.Scene pow wallColor w = (w', wallMat) ->
     let objs' := THREE.nodes (THREE.scene w') in
     (forall i mesh, meshAt objs i = Some mesh -> Part000.paintable mesh = true ->
           meshAt objs' i = Some (setMaterial wallMat mesh))
     /\ (forall i mesh, meshAt objs i = Some mesh -> Part000.paintable mesh = false ->
           meshAt objs' i = Some mesh
           /\ THREE.material mesh <> wallMat
           /\ THREE.materials w' !! THREE.material mesh
              = THREE.materials w !! THREE.material mesh)).
Proof.
  intros Hwf objs minY. split.
  - intros w' walls HS objs'.
    destruct (Scene_nodes _ _ _ _ HS) as (w1 & Hw & Hsc).
    destruct (walls_spec _ _ _ Hw) as (news & Hm & Hlen & Hkeep & Hnew & Hall & Hinj).
    subst objs'. rewrite Hsc. fold objs minY in Hkeep, Hnew, Hall.
    assert (Hold : forall k mesh, k ∉ walls ->
              meshAt (THREE.nodes (THREE.scene w1)) k = Some mesh ->
              meshAt objs k = Some mesh).
    { intros k mesh Hk. unfold meshAt. by rewrite (Hkeep k Hk). }
    split; [|split].
    + intros i. split.
      * intros [n Hn]%list_elem_of_lookup_1.
        destruct (Hnew n i Hn) as (mesh & ? & ? & _). by exists mesh.
      * intros (mesh & Hmesh & Hp). apply (Hall i mesh); [done | done |].
        by apply (Hwf i).
    + intros i j mi mj [n Hn]%list_elem_of_lookup_1 Hij Hmi Hmj.
      destruct (Hnew n i Hn) as (mesh & _ & _ & Hi'). rewrite Hi' in Hmi.
      simplify_eq. simpl.
      destruct (decide (j ∈ walls)) as [[n' Hn']%list_elem_of_lookup_1 | Hj].
      * destruct (Hnew n' j Hn') as (mesh' & _ & _ & Hj'). rewrite Hj' in Hmj.
        simplify_eq. simpl. intros E.
        assert (n = n') by lia. subst n'. rewrite Hn in Hn'. by simplify_eq.
      * apply (Hold j mj Hj) in Hmj. apply (Hwf j) in Hmj. lia.
    + intros i mesh Hi Hmesh. split.
      * unfold meshAt in *. by rewrite (Hkeep i Hi).
      * apply (Scene_old_untouched _ _ _ _ _ HS). by apply (Hwf i).
  - intros w' wallMat HS objs'.
    destruct (part000_Scene_spec _ _ _ _ _ HS) as (-> & Hmesh & Hold & _).
    subst objs' objs. split.
    + intros i mesh Hi Hp. rewrite (Hmesh i mesh Hi), Hp. done.
    + intros i mesh Hi Hp. rewrite (Hmesh i mesh Hi), Hp.
      pose proof (Hwf i mesh Hi) as Hlt. split; [done|]. split; [lia|].
      by apply Hold.
Qed.

Lemma room_wellFormed : wellFormed Examples.room.
Proof.
  intros i mesh H.
  do 4 (destruct i as [|i]; [vm_compute in H; injection H as <-; simpl; lia|]).
  discriminate H.
Defined.

(** In [part_000], [Wall_North] of the scenario is given the wall paint,
    the material number 4. *)
Lemma C5_material_ownership_witness :
  THREE.material <$> meshAt (THREE.nodes (THREE.scene (Part000.Scene Examples.noPow
                                 "#336699" Examples.room).1)) 0
  = Some 4%nat.
Proof.
  destruct (proj2 (C5_material_ownership Examples.noPow "#336699" Examples.room
                     room_wellFormed)
              (Part000.Scene Examples.noPow "#336699" Examples.room).1
              (Part000.Scene Examples.noPow "#336699" Examples.room).2
              eq_refl) as [Hpaint _].
  rewrite (Hpaint 0%nat _ eq_refl eq_refl). reflexivity.
Defined.

(** In [part_000] two walls end with the same material instance. *)
Lemma C5_shared_wall_material_counterexample :
  let '(w1, wallMat) := Part000.wallMaterial Examples.twoWalls in
  let objs' := THREE.nodes (THREE.scene (Part000.assignWallMaterial wallMat w1)) in
  THREE.name <$> meshAt objs' 0 = Some "Wall_North"%string
  /\ THREE.name <$> meshAt objs' 1 = Some "Wall_South"%string
  /\ THREE.material <$> meshAt objs' 0 = Some 2%nat
  /\ THREE.material <$> meshAt objs' 1 = Some 2%nat.
Proof. vm_compute. repeat split. Qed.

(** ** The end-to-end scenario *)





(** ** Colour space of the stored colour *)

